(** * Optimistic updates on the ['products'] query cache

    A shallow embedding of the create-product mutation of the demo
    (components [AddProductOptimistic] and [OptimisticUpdateDemo], with the
    shared [productTypes]) and the properties of its four phases:
    validate, begin (cancel, snapshot, speculative write), remote call with
    rollback on failure, settle.

    JavaScript values are carried as follows: a [number] the code computes
    with is a binary64 [float] (the price, which comes out of [parseFloat]
    and is compared with zero, and the total, to which one is added); a
    [number] the code only copies (ids, which are clock readings or come
    from the server, and the offsets [skip] and [limit]) is a [Z];
    [undefined] is [None]; an
    awaited promise is its completion, [Returns] or [Throws].  Objects are
    immutable values here because the code never assigns into a cached
    object: every write builds a fresh object with spread syntax.
    Console logging is left out.

    An invocation is followed from the submit handler to the end of its
    settle phase; what the world outside decides (the clock, the outcome
    of the cancellation, the outcome of the request) is an input of the
    invocation.  The store operations are recorded in a trace, in the order
    they are issued, so that statements about order and about what was
    never done can be made.

    The pessimistic [AddProduct] and the components that render (the list,
    its cards, the detail and the page) are embedded after the two
    optimistic components, with what relates them to these. *)

From Stdlib Require Import ZArith String.
From Stdlib Require Import Floats.PrimFloat.
From stdpp Require Import base gmap strings list pretty.

Local Open Scope Z_scope.
Local Open Scope string_scope.
Local Open Scope list_scope.

(** ** Data model ([productTypes]) *)

Module NewProduct.
Record t := mk { title : string; price : float }.
End NewProduct.

Module ProductResponse.
Record t := mk {
  id : Z;
  title : string;
  price : float;
  thumbnail : option string;
  description : option string;
  images : option (list string)
}.
End ProductResponse.

Module ProductsQueryData.
Record t := mk {
  products : list ProductResponse.t;
  total : float;
  skip : Z;
  limit : Z
}.
End ProductsQueryData.

(** A query key is an array of strings; the only one in use is ['products']. *)
Definition QueryKey : Type := list string.
Definition productsKey : QueryKey := ["products"].

(** A JavaScript [Error], carried by its message. *)
Definition Error : Type := string.

(** ** Completions and tasks *)

(** How an awaited call ends. *)
Inductive Completion (A : Type) : Type :=
  | Returns (a : A)
  | Throws (e : Error).
Arguments Returns {A} a.
Arguments Throws {A} e.

(** What the HTTP layer hands back from [fetch]: the [ok] flag, and the
    outcome of [response.json()]. *)
Module Response.
Record t := mk { ok : bool; body : Completion ProductResponse.t }.
End Response.

(** ** The client-side cache store *)

(** The state of the query client: the data stored per key, the keys marked
    stale, and the keys with a background refetch in flight. *)
Module QueryClient.
Record t := mk {
  queries : gmap QueryKey ProductsQueryData.t;
  stale : gset QueryKey;
  fetching : gset QueryKey
}.
End QueryClient.

(** The second argument of [setQueryData]: a value, or a function of the
    current data. *)
Inductive Updater : Type :=
  | Value (data : ProductsQueryData.t)
  | Update (f : option ProductsQueryData.t → option ProductsQueryData.t).

(** The operations the components perform on their surroundings, in the
    order they are issued. *)
Inductive Event : Type :=
  | CancelQueries (queryKey : QueryKey)
  | GetQueryData (queryKey : QueryKey)
  | SetQueryData (queryKey : QueryKey) (written : option ProductsQueryData.t)
  | InvalidateQueries (queryKey : QueryKey)
  | Fetch (url : string) (body : NewProduct.t)
  | Alert (message : string).

(** The two [useState] cells of the form. *)
Module Form.
Record t := mk { title : string; price : string }.
End Form.

(** The status the mutation exposes to the UI layer. *)
Inductive MutationStatus : Type :=
  | Idle
  | Pending
  | IsError (error : Error)
  | IsSuccess (data : ProductResponse.t).

Module World.
Record t := mk {
  client : QueryClient.t;
  form : Form.t;
  status : MutationStatus;
  trace : list Event
}.
End World.

(** What one invocation reads from outside the program: the clock
    ([Date.now()]), how awaiting [cancelQueries] ends, and how awaiting
    [fetch] ends. *)
Module Env.
Record t := mk {
  now : Z;
  cancellation : Completion unit;
  remote : Completion Response.t
}.
End Env.

(** A task runs on the world and completes. *)
Definition Task (A : Type) : Type := World.t → Completion A * World.t.

Definition ret {A} (a : A) : Task A := λ w, (Returns a, w).

Definition throw {A} (e : Error) : Task A := λ w, (Throws e, w).

Definition bind {A B} (m : Task A) (k : A → Task B) : Task B :=
  λ w, match m w with
       | (Returns a, w') => k a w'
       | (Throws e, w') => (Throws e, w')
       end.

Declare Scope task_scope.
Delimit Scope task_scope with task.
Bind Scope task_scope with Task.
Notation "'let*' x ':=' m 'in' k" := (bind m (λ x, k))
  (at level 10, x name, m at level 100, k at level 200) : task_scope.
Notation "m '>>' k" := (bind m (λ _, k))
  (at level 80, right associativity) : task_scope.
Local Open Scope task_scope.

Definition await {A} (c : Completion A) : Task A := λ w, (c, w).

(** State access. *)
Definition log (e : Event) : Task unit :=
  λ w, (Returns tt,
        World.mk (World.client w) (World.form w) (World.status w)
                 (World.trace w ++ [e])).

Definition getClient : Task QueryClient.t := λ w, (Returns (World.client w), w).

Definition putClient (c : QueryClient.t) : Task unit :=
  λ w, (Returns tt,
        World.mk c (World.form w) (World.status w) (World.trace w)).

Definition setStatus (s : MutationStatus) (w : World.t) : World.t :=
  World.mk (World.client w) (World.form w) s (World.trace w).

Definition setTitle (s : string) : Task unit :=
  λ w, (Returns tt,
        World.mk (World.client w) (Form.mk s (Form.price (World.form w)))
                 (World.status w) (World.trace w)).

Definition setPrice (s : string) : Task unit :=
  λ w, (Returns tt,
        World.mk (World.client w) (Form.mk (Form.title (World.form w)) s)
                 (World.status w) (World.trace w)).

Definition alert (message : string) : Task unit := log (Alert message).

(** *** Store operations *)

(** Modelled from the spec: the query client of the data-fetching library,
    which the components import and which is not among the sources; section
    4.2 of the specification gives its four operations.  [getQueryData]
    returns the current value or the absent marker. *)
Definition getQueryData (queryKey : QueryKey) : Task (option ProductsQueryData.t) :=
  let* c := getClient in
  log (GetQueryData queryKey) >>
  ret (QueryClient.queries c !! queryKey).

(** What an updater makes of the current value; a plain value stands for
    the updater that ignores it. *)
Definition functionalUpdate (updater : Updater)
    (prev : option ProductsQueryData.t) : option ProductsQueryData.t :=
  match updater with
  | Value data => Some data
  | Update f => f prev
  end.

(** Modelled from the spec: [set(key, updater)] applies the updater to the
    current value and stores the result; when the updater returns the absent
    marker nothing is stored. *)
Definition setQueryData (queryKey : QueryKey) (updater : Updater) : Task unit :=
  let* c := getClient in
  let data := functionalUpdate updater (QueryClient.queries c !! queryKey) in
  log (SetQueryData queryKey data) >>
  match data with
  | None => ret tt
  | Some d =>
      putClient (QueryClient.mk (<[queryKey := d]> (QueryClient.queries c))
                                (QueryClient.stale c) (QueryClient.fetching c))
  end.

(** Modelled from the spec: [cancelInFlightFetches(key)] asks that any
    pending refresh of the key be dropped; awaiting it may fail, and then the
    store is left as it was. *)
Definition cancelQueries (env : Env.t) (queryKey : QueryKey) : Task unit :=
  log (CancelQueries queryKey) >>
  await (Env.cancellation env) >>
  let* c := getClient in
  putClient (QueryClient.mk (QueryClient.queries c) (QueryClient.stale c)
                            (QueryClient.fetching c ∖ {[queryKey]})).

(** Modelled from the spec: [invalidate(key)] marks the entry stale and
    schedules a refresh from the remote source. *)
Definition invalidateQueries (queryKey : QueryKey) : Task unit :=
  log (InvalidateQueries queryKey) >>
  let* c := getClient in
  putClient (QueryClient.mk (QueryClient.queries c)
                            ({[queryKey]} ∪ QueryClient.stale c)
                            ({[queryKey]} ∪ QueryClient.fetching c)).

(** *** The remote product API *)

Definition addUrl : string := "https://dummyjson.com/products/add".

(** [fetch(url, {method: 'POST', body: JSON.stringify(newProduct)})]: the
    request is issued, and the promise settles as the environment says. *)
Definition fetch (env : Env.t) (url : string) (body : NewProduct.t) : Task Response.t :=
  log (Fetch url body) >>
  await (Env.remote env).

(** [response.json()]. *)
Definition json (response : Response.t) : Task ProductResponse.t :=
  await (Response.body response).

(** *** Built-ins of the language *)

(** [String.prototype.trim] and [parseFloat], which the form handlers call;
    they are taken as given. *)
Class Builtins := {
  trim : string → string;
  parseFloat : string → float
}.

(** [!s] for a string [s]: only the empty string is falsy. *)
Definition falsy (s : string) : bool :=
  match s with
  | EmptyString => true
  | String _ _ => false
  end.

(** ** The mutation controller *)

(** The options object passed to [useMutation]. *)
Record MutationOptions (Context : Type) := useMutation {
  mutationFn : NewProduct.t → Task ProductResponse.t;
  onMutate : NewProduct.t → Task Context;
  onError : Error → NewProduct.t → option Context → Task unit;
  onSuccess : ProductResponse.t → NewProduct.t → option Context → Task unit;
  onSettled : option ProductResponse.t → option Error → NewProduct.t →
              option Context → Task unit
}.
Arguments useMutation {Context}.
Arguments mutationFn {Context} _.
Arguments onMutate {Context} _.
Arguments onError {Context} _.
Arguments onSuccess {Context} _.
Arguments onSettled {Context} _.

(** Modelled from the spec: the routine of the data-fetching library behind
    [addProductMutation.mutate], which is not among the sources.  Section 4.1
    of the specification orders its phases: begin ([onMutate]), the remote
    call ([mutationFn]), then [onError] on failure or [onSuccess] on success,
    then settle ([onSettled]) whatever the outcome; a failure is the terminal
    status of the invocation and is not retried.  When the begin phase itself
    fails no remote call is made; the failure is handled like one of the
    remote call, with no context to hand over.  The handlers of this
    repository never throw, so what they complete with is dropped. *)
Definition mutate {Context} (options : MutationOptions Context)
    (variables : NewProduct.t) (w : World.t) : World.t :=
  let w := setStatus Pending w in
  let (begun, w) := onMutate options variables w in
  match begun with
  | Throws e =>
      let (_, w) := onError options e variables None w in
      let (_, w) := onSettled options None (Some e) variables None w in
      setStatus (IsError e) w
  | Returns context =>
      let (outcome, w) := mutationFn options variables w in
      match outcome with
      | Throws e =>
          let (_, w) := onError options e variables (Some context) w in
          let (_, w) := onSettled options None (Some e) variables (Some context) w in
          setStatus (IsError e) w
      | Returns data =>
          let (_, w) := onSuccess options data variables (Some context) w in
          let (_, w) := onSettled options (Some data) None variables (Some context) w in
          setStatus (IsSuccess data) w
      end
  end.

(** ** Component [AddProductOptimistic] *)

Module AddProductOptimistic.

(** The value [onMutate] returns, handed to [onError] on failure. *)
Record Context := mkContext {
  previousProducts : option ProductsQueryData.t;
  optimisticProductTitle : string
}.

Definition mutationFn (env : Env.t) (newProduct : NewProduct.t)
    : Task ProductResponse.t :=
  let* response := fetch env addUrl newProduct in
  if negb (Response.ok response) then throw "Failed to add product"
  else json response.

(** The placeholder shown at once. *)
Definition optimisticProduct (timestamp : Z) (newProduct : NewProduct.t)
    : ProductResponse.t :=
  {| ProductResponse.id := timestamp;
     ProductResponse.title := NewProduct.title newProduct;
     ProductResponse.price := NewProduct.price newProduct;
     ProductResponse.thumbnail :=
       Some ("https://picsum.photos/150/150?random=" +:+ pretty timestamp);
     ProductResponse.description := Some "Recently added product";
     ProductResponse.images :=
       Some ["https://picsum.photos/300/300?random=" +:+ pretty timestamp] |}.

(** The function passed to [setQueryData] in [onMutate]. *)
Definition updater (env : Env.t) (newProduct : NewProduct.t)
    (oldData : option ProductsQueryData.t) : option ProductsQueryData.t :=
  match oldData with
  | None => None
  | Some oldData =>
      let timestamp := Env.now env in
      let updatedData :=
        {| ProductsQueryData.products :=
             optimisticProduct timestamp newProduct
               :: ProductsQueryData.products oldData;
           ProductsQueryData.total :=
             (ProductsQueryData.total oldData + 1)%float;
           ProductsQueryData.skip := ProductsQueryData.skip oldData;
           ProductsQueryData.limit := ProductsQueryData.limit oldData |} in
      Some updatedData
  end.

Definition onMutate (env : Env.t) (newProduct : NewProduct.t) : Task Context :=
  cancelQueries env productsKey >>
  let* previousProducts := getQueryData productsKey in
  setQueryData productsKey (Update (updater env newProduct)) >>
  ret {| previousProducts := previousProducts;
         optimisticProductTitle := NewProduct.title newProduct |}.

Definition onError (error : Error) (_newProduct : NewProduct.t)
    (context : option Context) : Task unit :=
  match context ≫= previousProducts with
  | Some previousProducts => setQueryData productsKey (Value previousProducts)
  | None => ret tt
  end.

Definition onSuccess (serverResponse : ProductResponse.t)
    (_newProduct : NewProduct.t) (_context : option Context) : Task unit :=
  setTitle "" >>
  setPrice "".

Definition onSettled (_data : option ProductResponse.t) (error : option Error)
    (_variables : NewProduct.t) (_context : option Context) : Task unit :=
  invalidateQueries productsKey.

Definition addProductMutation (env : Env.t) : MutationOptions Context :=
  useMutation (mutationFn env) (onMutate env) onError onSuccess onSettled.

(** The form's submit handler; [env] is what the mutation it starts will
    read from outside. *)
Definition handleSubmit {builtins : Builtins} (env : Env.t) (w : World.t) : World.t :=
  let title := Form.title (World.form w) in
  let price := Form.price (World.form w) in
  if falsy (trim title) || falsy (trim price) then
    snd (alert "Please fill in both title and price" w)
  else
    let priceNumber := parseFloat price in
    if PrimFloat.is_nan priceNumber || PrimFloat.leb priceNumber 0 then
      snd (alert "Please enter a valid price" w)
    else
      mutate (addProductMutation env)
             {| NewProduct.title := trim title;
                NewProduct.price := priceNumber |} w.

End AddProductOptimistic.

(** ** Component [OptimisticUpdateDemo] *)

Inductive DemoMode : Type := normal | slow | error.

Module OptimisticUpdateDemo.

Record Context := mkContext {
  previousProducts : option ProductsQueryData.t;
  timestamp : Z
}.

(** The slow and the error scenario first wait on a timer (6 s, 1 s); the
    wait has no effect on the store and is not modelled.  The closing
    [throw new Error('Unknown demo mode')] is unreachable for the three
    values of the mode. *)
Definition mutationFn (demoMode : DemoMode) (env : Env.t)
    (newProduct : NewProduct.t) : Task ProductResponse.t :=
  match demoMode with
  | normal =>
      let* response := fetch env addUrl newProduct in
      json response
  | slow =>
      let* response := fetch env addUrl newProduct in
      json response
  | error => throw "Server temporarily unavailable (demo error)"
  end.

Definition optimisticProduct (timestamp : Z) (newProduct : NewProduct.t)
    : ProductResponse.t :=
  {| ProductResponse.id := timestamp;
     ProductResponse.title := NewProduct.title newProduct;
     ProductResponse.price := NewProduct.price newProduct;
     ProductResponse.thumbnail :=
       Some ("https://picsum.photos/150/150?random=" +:+ pretty timestamp);
     ProductResponse.description :=
       Some (NewProduct.title newProduct +:+ " - Added via optimistic update");
     ProductResponse.images :=
       Some ["https://picsum.photos/300/300?random=" +:+ pretty timestamp] |}.

Definition updater (timestamp : Z) (newProduct : NewProduct.t)
    (oldData : option ProductsQueryData.t) : option ProductsQueryData.t :=
  match oldData with
  | None => None
  | Some oldData =>
      Some {| ProductsQueryData.products :=
                optimisticProduct timestamp newProduct
                  :: ProductsQueryData.products oldData;
              ProductsQueryData.total :=
                (ProductsQueryData.total oldData + 1)%float;
              ProductsQueryData.skip := ProductsQueryData.skip oldData;
              ProductsQueryData.limit := ProductsQueryData.limit oldData |}
  end.

Definition onMutate (env : Env.t) (newProduct : NewProduct.t) : Task Context :=
  let timestamp := Env.now env in
  cancelQueries env productsKey >>
  let* previousProducts := getQueryData productsKey in
  setQueryData productsKey (Update (updater timestamp newProduct)) >>
  ret {| previousProducts := previousProducts; timestamp := timestamp |}.

Definition onError (error : Error) (newProduct : NewProduct.t)
    (context : option Context) : Task unit :=
  match context ≫= previousProducts with
  | Some previousProducts => setQueryData productsKey (Value previousProducts)
  | None => ret tt
  end.

Definition onSuccess (serverResponse : ProductResponse.t)
    (newProduct : NewProduct.t) (context : option Context) : Task unit :=
  setTitle "" >>
  setPrice "".

Definition onSettled (_data : option ProductResponse.t) (error : option Error)
    (_variables : NewProduct.t) (_context : option Context) : Task unit :=
  invalidateQueries productsKey.

Definition addProductMutation (demoMode : DemoMode) (env : Env.t)
    : MutationOptions Context :=
  useMutation (mutationFn demoMode env) (onMutate env)
              onError onSuccess onSettled.

Definition handleSubmit {builtins : Builtins} (demoMode : DemoMode) (env : Env.t)
    (w : World.t) : World.t :=
  let title := Form.title (World.form w) in
  let price := Form.price (World.form w) in
  if falsy (trim title) || falsy (trim price) then w
  else
    let priceNumber := parseFloat price in
    if PrimFloat.is_nan priceNumber || PrimFloat.leb priceNumber 0 then w
    else
      mutate (addProductMutation demoMode env)
             {| NewProduct.title := trim title;
                NewProduct.price := priceNumber |} w.

End OptimisticUpdateDemo.

(** ** The two components side by side *)

Inductive Component : Type :=
  | Optimistic
  | Demo (demoMode : DemoMode).

Definition ContextOf (c : Component) : Type :=
  match c with
  | Optimistic => AddProductOptimistic.Context
  | Demo _ => OptimisticUpdateDemo.Context
  end.

Definition addProductMutation (c : Component) (env : Env.t)
    : MutationOptions (ContextOf c) :=
  match c with
  | Optimistic => AddProductOptimistic.addProductMutation env
  | Demo demoMode => OptimisticUpdateDemo.addProductMutation demoMode env
  end.

Definition previousProducts {c : Component} : ContextOf c → option ProductsQueryData.t :=
  match c with
  | Optimistic => AddProductOptimistic.previousProducts
  | Demo _ => OptimisticUpdateDemo.previousProducts
  end.

Definition optimisticProduct (c : Component) (timestamp : Z)
    (newProduct : NewProduct.t) : ProductResponse.t :=
  match c with
  | Optimistic => AddProductOptimistic.optimisticProduct timestamp newProduct
  | Demo _ => OptimisticUpdateDemo.optimisticProduct timestamp newProduct
  end.

Definition handleSubmit {builtins : Builtins} (c : Component) (env : Env.t)
    : World.t → World.t :=
  match c with
  | Optimistic => AddProductOptimistic.handleSubmit env
  | Demo demoMode => OptimisticUpdateDemo.handleSubmit demoMode env
  end.

(** *** Observations used in the statements *)

(** The cached entry under ['products'].  Of the events, a fetch is a
    request to the remote API, a write is a [setQueryData] that stores
    something, and an invalidation is an [invalidateQueries]. *)
Definition cached (w : World.t) : option ProductsQueryData.t :=
  QueryClient.queries (World.client w) !! productsKey.

Definition isFetch (e : Event) : bool :=
  match e with Fetch _ _ => true | _ => false end.

Definition isWrite (e : Event) : bool :=
  match e with SetQueryData _ (Some _) => true | _ => false end.

Definition isSetQueryData (e : Event) : bool :=
  match e with SetQueryData _ _ => true | _ => false end.

Definition isInvalidate (e : Event) : bool :=
  match e with InvalidateQueries _ => true | _ => false end.

(** How many events of a kind a trace holds. *)
Definition count (p : Event → bool) (t : list Event) : nat :=
  length (List.filter p t).

(** The form is valid: neither field is empty once trimmed, and the price
    parses to a number that is not at or below zero. *)
Definition valid {builtins : Builtins} (f : Form.t) : Prop :=
  trim (Form.title f) ≠ "" ∧
  trim (Form.price f) ≠ "" ∧
  PrimFloat.is_nan (parseFloat (Form.price f)) = false ∧
  PrimFloat.leb (parseFloat (Form.price f)) 0 = false.

(** The speculative entry either component writes in its begin phase. *)
Definition updater (c : Component) (env : Env.t) (newProduct : NewProduct.t)
    : option ProductsQueryData.t → option ProductsQueryData.t :=
  match c with
  | Optimistic => AddProductOptimistic.updater env newProduct
  | Demo _ => OptimisticUpdateDemo.updater (Env.now env) newProduct
  end.

(** The world in which the begin phase of an invocation leaves off, and what
    the remote call of that invocation completes with. *)
Definition begun (c : Component) (env : Env.t) (variables : NewProduct.t)
    (w : World.t) : World.t :=
  snd (onMutate (addProductMutation c env) variables (setStatus Pending w)).

Definition remoteCall (c : Component) (env : Env.t) (variables : NewProduct.t)
    (w : World.t) : Completion ProductResponse.t :=
  fst (mutationFn (addProductMutation c env) variables (begun c env variables w)).

(** The number of items of an entry, read as the components read it for
    their log: [previousProducts?.products?.length || 0]. *)
Definition itemCount (entry : option ProductsQueryData.t) : nat :=
  match entry with
  | Some d => length (ProductsQueryData.products d)
  | None => 0
  end.

(** The requests the remote call of a component issues. *)
Definition issued (c : Component) (variables : NewProduct.t) : list Event :=
  match c with
  | Demo error => []
  | _ => [Fetch addUrl variables]
  end.

(** The operations of the begin phase. *)
Definition beginEvents (c : Component) (env : Env.t) (variables : NewProduct.t)
    (entry : option ProductsQueryData.t) : list Event :=
  [CancelQueries productsKey; GetQueryData productsKey;
   SetQueryData productsKey (updater c env variables entry)].

(** The operations of the rollback, for a given snapshot. *)
Definition rollbackEvents (snapshot : option ProductsQueryData.t) : list Event :=
  match snapshot with
  | Some s => [SetQueryData productsKey (Some s)]
  | None => []
  end.

(** The store after the speculative write. *)
Definition speculated (c : Component) (env : Env.t) (variables : NewProduct.t)
    (qs : gmap QueryKey ProductsQueryData.t) : gmap QueryKey ProductsQueryData.t :=
  match updater c env variables (qs !! productsKey) with
  | Some d => <[productsKey := d]> qs
  | None => qs
  end.

(** ** Component [AddProduct]: the pessimistic update *)

Module AddProduct.

(** There is no [onMutate], so nothing is handed on to the handlers. *)
Definition Context : Type := unit.

Definition mutationFn (env : Env.t) (newProduct : NewProduct.t)
    : Task ProductResponse.t :=
  let* response := fetch env addUrl newProduct in
  if negb (Response.ok response) then throw "Failed to add product"
  else json response.

Definition onSuccess (data : ProductResponse.t) (_newProduct : NewProduct.t)
    (_context : option Context) : Task unit :=
  invalidateQueries productsKey >>
  setTitle "" >>
  setPrice "".

(** [onError] only writes to the console. *)
Definition onError (error : Error) (_newProduct : NewProduct.t)
    (_context : option Context) : Task unit :=
  ret tt.

(** The options name three of the five functions; the two that are absent,
    [onMutate] and [onSettled], do nothing. *)
Definition addProductMutation (env : Env.t) : MutationOptions Context :=
  useMutation (mutationFn env) (λ _, ret tt) onError onSuccess
              (λ _ _ _ _, ret tt).

Definition handleSubmit {builtins : Builtins} (env : Env.t) (w : World.t)
    : World.t :=
  let title := Form.title (World.form w) in
  let price := Form.price (World.form w) in
  if falsy (trim title) || falsy (trim price) then
    snd (alert "Please fill in both title and price" w)
  else
    let priceNumber := parseFloat price in
    if PrimFloat.is_nan priceNumber || PrimFloat.leb priceNumber 0 then
      snd (alert "Please enter a valid price" w)
    else
      mutate (addProductMutation env)
             {| NewProduct.title := trim title;
                NewProduct.price := priceNumber |} w.

End AddProduct.

(** ** What is shown *)

(** The components that render are carried by what they compute from their
    data: which branch is rendered, the texts and attributes, and what a
    click hands over.  Markup and class names are left out.  The objects of
    the list are those of the cache, so the type [Product] of the views is
    read off [ProductResponse.t]. *)

Module ProductCard.

Record t := mk {
  src : option string;
  title : string;
  alt : string;
  heading : string;
  onClick : ProductResponse.t
}.

(** [onClick] is the product [onSelect] is called with. *)
Definition render (product : ProductResponse.t) : t :=
  {| src := ProductResponse.thumbnail product;
     title := ProductResponse.title product;
     alt := ProductResponse.title product;
     heading := ProductResponse.title product;
     onClick := product |}.

End ProductCard.

Module ProductDetail.

Record t := mk {
  src : option string;
  alt : string;
  title : string;
  heading : string;
  paragraph : option string
}.

(** [product?.images?.[0]] is absent without images and for an empty
    array. *)
Definition render (product : ProductResponse.t) : t :=
  {| src := ProductResponse.images product ≫= head;
     alt := ProductResponse.title product;
     title := ProductResponse.title product;
     heading := ProductResponse.title product;
     paragraph := ProductResponse.description product |}.

End ProductDetail.

Module ProductList.

(** What [useQuery] hands to the component. *)
Record QueryResult := mkQueryResult {
  isPending : bool;
  error : option Error;
  data : option ProductsQueryData.t
}.

(** The four things the component can return; a card goes with its [key]. *)
Inductive View : Type :=
  | Loading
  | ErrorMessage (message : string)
  | NoDataFound
  | Products (cards : list (Z * ProductCard.t)).

Definition render (q : QueryResult) : View :=
  if isPending q then Loading
  else match error q with
       | Some e => ErrorMessage e
       | None =>
           match data q with
           | None => NoDataFound
           | Some data =>
               Products
                 ((λ product,
                     (ProductResponse.id product, ProductCard.render product))
                    <$> ProductsQueryData.products data)
           end
       end.

End ProductList.

Module App.

(** The state cell [selectedProduct] and its two handlers. *)
Definition handleProductSelect (product : ProductResponse.t)
    (selectedProduct : option ProductResponse.t) : option ProductResponse.t :=
  Some product.

Definition handleBackToList (selectedProduct : option ProductResponse.t)
    : option ProductResponse.t :=
  None.

(** Beside the form, the page shows the detail of the selected product, or
    the list when none is selected. *)
Inductive View : Type :=
  | Detail (detail : ProductDetail.t)
  | List (list : ProductList.View).

Definition render (selectedProduct : option ProductResponse.t)
    (q : ProductList.QueryResult) : View :=
  match selectedProduct with
  | Some product => Detail (ProductDetail.render product)
  | None => List (ProductList.render q)
  end.

End App.

(** The query of the list once it has data or has none to wait for: not
    pending, without error, holding the cached entry. *)
Definition shown (w : World.t) : ProductList.QueryResult :=
  {| ProductList.isPending := false;
     ProductList.error := None;
     ProductList.data := cached w |}.

(** The keys of the cards of an entry. *)
Definition keys (entry : ProductsQueryData.t) : list Z :=
  ProductResponse.id <$> ProductsQueryData.products entry.

(** [addProductMutation.isPending]. *)
Definition isPending (w : World.t) : bool :=
  match World.status w with
  | Pending => true
  | _ => false
  end.

(** The [disabled] attribute of the submit button of a form. *)
Definition submitDisabled {builtins : Builtins} (c : Component) (w : World.t)
    : bool :=
  match c with
  | Optimistic => isPending w
  | Demo _ =>
      isPending w
      || falsy (trim (Form.title (World.form w)))
      || falsy (trim (Form.price (World.form w)))
  end.

(** *** Several submissions under way at once *)

(** The begin phases of a sequence of submissions, run one after the other
    before any of them settles. *)
Fixpoint beginAll (c : Component) (submissions : list (Env.t * NewProduct.t))
    (w : World.t) : World.t :=
  match submissions with
  | [] => w
  | (env, variables) :: rest =>
      beginAll c rest (snd (onMutate (addProductMutation c env) variables w))
  end.

(** The placeholders of a sequence of submissions, the latest first. *)
Definition placeholders (c : Component) (submissions : list (Env.t * NewProduct.t))
    : list ProductResponse.t :=
  rev (List.map (λ s, optimisticProduct c (Env.now (fst s)) (snd s)) submissions).

(** ** Sample inputs *)

Module Sample.

(** A product already on the server. *)
Definition A : ProductResponse.t :=
  {| ProductResponse.id := 1;
     ProductResponse.title := "Essence Mascara Lash Princess";
     ProductResponse.price := 9.5;
     ProductResponse.thumbnail := Some "https://cdn.dummyjson.com/1.webp";
     ProductResponse.description := Some "A popular mascara";
     ProductResponse.images := Some ["https://cdn.dummyjson.com/1.webp"] |}.

Definition listed : ProductsQueryData.t :=
  {| ProductsQueryData.products := [A];
     ProductsQueryData.total := 194;
     ProductsQueryData.skip := 0;
     ProductsQueryData.limit := 2 |}.

(** A list whose total is 2^53, the first integer from which adding one
    in binary64 gives the number itself. *)
Definition saturatedList : ProductsQueryData.t :=
  {| ProductsQueryData.products := [A];
     ProductsQueryData.total := 9007199254740992;
     ProductsQueryData.skip := 0;
     ProductsQueryData.limit := 2 |}.

(** A world whose list has been fetched, and one whose list has not. *)
Definition loaded : World.t :=
  World.mk (QueryClient.mk {[productsKey := listed]} ∅ ∅)
           (Form.mk "Pen" "1.5") Idle [].

Definition unloaded : World.t :=
  World.mk (QueryClient.mk ∅ ∅ ∅) (Form.mk "Pen" "1.5") Idle [].

Definition saturated : World.t :=
  World.mk (QueryClient.mk {[productsKey := saturatedList]} ∅ ∅)
           (Form.mk "Pen" "1.5") Idle [].

Definition pen : NewProduct.t :=
  {| NewProduct.title := "Pen"; NewProduct.price := 1.5 |}.

Definition ink : NewProduct.t :=
  {| NewProduct.title := "Ink"; NewProduct.price := 2 |}.

Definition created : ProductResponse.t :=
  {| ProductResponse.id := 195;
     ProductResponse.title := "Pen";
     ProductResponse.price := 1.5;
     ProductResponse.thumbnail := None;
     ProductResponse.description := None;
     ProductResponse.images := None |}.

(** What a server that answers with a failure status sends as its body,
    read as the code reads it. *)
Definition refusal : ProductResponse.t :=
  {| ProductResponse.id := 0;
     ProductResponse.title := "";
     ProductResponse.price := 0;
     ProductResponse.thumbnail := None;
     ProductResponse.description := None;
     ProductResponse.images := None |}.

Definition clock : Z := 1700000000000.

(** The create call succeeds; is answered with status 500; is rejected;
    and the cancellation before it fails. *)
Definition succeeds : Env.t :=
  Env.mk clock (Returns tt) (Returns (Response.mk true (Returns created))).

Definition status500 : Env.t :=
  Env.mk clock (Returns tt) (Returns (Response.mk false (Returns refusal))).

Definition rejects : Env.t :=
  Env.mk clock (Returns tt) (Throws "Failed to fetch").

Definition uncancelled : Env.t :=
  Env.mk clock (Throws "cancel failed") (Throws "Failed to fetch").

(** Built-ins tabulated on the strings of the samples. *)
Definition tabulated : Builtins :=
  {| trim := λ s, if String.eqb s "  " then "" else s;
     parseFloat := λ s,
       if String.eqb s "1.5" then 1.5%float
       else if String.eqb s "0" then 0%float
       else nan |}.

End Sample.

(** ** Symbolic execution of the tasks *)

Ltac run :=
  cbv beta iota zeta delta
    [mutate addProductMutation previousProducts optimisticProduct handleSubmit
     updater begun remoteCall
     mutationFn onMutate onError onSuccess onSettled
     AddProductOptimistic.addProductMutation AddProductOptimistic.mutationFn
     AddProductOptimistic.onMutate AddProductOptimistic.onError
     AddProductOptimistic.onSuccess AddProductOptimistic.onSettled
     AddProductOptimistic.handleSubmit
     OptimisticUpdateDemo.addProductMutation OptimisticUpdateDemo.mutationFn
     OptimisticUpdateDemo.onMutate OptimisticUpdateDemo.onError
     OptimisticUpdateDemo.onSuccess OptimisticUpdateDemo.onSettled
     OptimisticUpdateDemo.handleSubmit
     cancelQueries getQueryData setQueryData invalidateQueries functionalUpdate
     fetch json alert setTitle setPrice setStatus
     bind ret throw await log getClient putClient cached
     World.client World.form World.status World.trace
     QueryClient.queries QueryClient.stale QueryClient.fetching
     Env.now Env.cancellation Env.remote fst snd].

(** Taking a world and its client apart into their fields. *)
Ltac open_world w :=
  let c := fresh "client" in
  destruct w as [c ? ? ?]; destruct c as [? ? ?].

(** *** The store operations, one by one *)

Lemma setQueryData_run queryKey u qs st fe fo s tr :
  setQueryData queryKey u (World.mk (QueryClient.mk qs st fe) fo s tr) =
  (Returns tt,
   World.mk
     (QueryClient.mk
        (match functionalUpdate u (qs !! queryKey) with
         | Some d => <[queryKey := d]> qs
         | None => qs
         end) st fe)
     fo s (tr ++ [SetQueryData queryKey (functionalUpdate u (qs !! queryKey))])).
Proof.
  run. fold (functionalUpdate u (qs !! queryKey)).
  by destruct (functionalUpdate u (qs !! queryKey)).
Qed.

Lemma updater_absent c env newProduct : updater c env newProduct None = None.
Proof. by destruct c. Qed.

Lemma updater_present c env newProduct oldData :
  updater c env newProduct (Some oldData) =
  Some {| ProductsQueryData.products :=
            optimisticProduct c (Env.now env) newProduct
              :: ProductsQueryData.products oldData;
          ProductsQueryData.total :=
            (ProductsQueryData.total oldData + 1)%float;
          ProductsQueryData.skip := ProductsQueryData.skip oldData;
          ProductsQueryData.limit := ProductsQueryData.limit oldData |}.
Proof. by destruct c. Qed.

(** The begin phase when the cancellation completes: the snapshot is the
    entry as it was, the store holds the speculative entry (or nothing new
    when there was no entry), and three operations were issued, in order. *)
Lemma onMutate_returns c env variables qs st fe fo s tr :
  Env.cancellation env = Returns tt →
  ∃ ctx : ContextOf c,
    onMutate (addProductMutation c env) variables
             (World.mk (QueryClient.mk qs st fe) fo s tr) =
    (Returns ctx,
     World.mk
       (QueryClient.mk
          (match updater c env variables (qs !! productsKey) with
           | Some d => <[productsKey := d]> qs
           | None => qs
           end) st (fe ∖ {[productsKey]}))
       fo s
       (tr ++ [CancelQueries productsKey; GetQueryData productsKey;
               SetQueryData productsKey
                 (updater c env variables (qs !! productsKey))])) ∧
    previousProducts ctx = qs !! productsKey.
Proof.
  intros Hc. destruct env as [now cancellation remote].
  simpl in Hc. subst cancellation.
  destruct c; eexists; split.
  - run. rewrite <- !app_assoc. cbn [app].
    by destruct (AddProductOptimistic.updater _ _ _).
  - reflexivity.
  - run. rewrite <- !app_assoc. cbn [app].
    by destruct (OptimisticUpdateDemo.updater _ _ _).
  - reflexivity.
Qed.

Lemma onMutate_throws c env variables e qs st fe fo s tr :
  Env.cancellation env = Throws e →
  onMutate (addProductMutation c env) variables
           (World.mk (QueryClient.mk qs st fe) fo s tr) =
  (Throws e,
   World.mk (QueryClient.mk qs st fe) fo s (tr ++ [CancelQueries productsKey])).
Proof.
  intros Hc. destruct env as [now cancellation remote].
  simpl in Hc. subst cancellation. by destruct c.
Qed.

(** The remote call touches neither the store nor the form; it issues its
    request, except in the demo's error scenario, which issues none. *)
Lemma mutationFn_run c env variables :
  ∃ outcome,
    (∀ w, mutationFn (addProductMutation c env) variables w =
          (outcome,
           World.mk (World.client w) (World.form w) (World.status w)
                    (World.trace w ++ issued c variables))) ∧
    (c = Demo error → outcome = Throws "Server temporarily unavailable (demo error)").
Proof.
  destruct env as [now cancellation [[ok body] | e]];
    destruct c as [| []]; try destruct ok;
    (eexists; split; [intros [? ? ? ?]; run; cbn [issued app];
                      rewrite ?app_nil_r; reflexivity | by intros]).
Qed.

Lemma onError_run c env e variables (context : option (ContextOf c))
    qs st fe fo s tr :
  onError (addProductMutation c env) e variables context
          (World.mk (QueryClient.mk qs st fe) fo s tr) =
  (Returns tt,
   match context ≫= previousProducts with
   | Some snapshot =>
       World.mk (QueryClient.mk (<[productsKey := snapshot]> qs) st fe) fo s
                (tr ++ [SetQueryData productsKey (Some snapshot)])
   | None => World.mk (QueryClient.mk qs st fe) fo s tr
   end).
Proof.
  destruct c; run;
    (destruct context as [[[snapshot |] ?] |]; reflexivity).
Qed.

Lemma onSuccess_run c env data variables (context : option (ContextOf c))
    cl fo s tr :
  onSuccess (addProductMutation c env) data variables context
            (World.mk cl fo s tr) =
  (Returns tt, World.mk cl (Form.mk "" "") s tr).
Proof. by destruct c. Qed.

Lemma onSettled_run c env data e variables (context : option (ContextOf c))
    qs st fe fo s tr :
  onSettled (addProductMutation c env) data e variables context
            (World.mk (QueryClient.mk qs st fe) fo s tr) =
  (Returns tt,
   World.mk (QueryClient.mk qs ({[productsKey]} ∪ st) ({[productsKey]} ∪ fe))
            fo s (tr ++ [InvalidateQueries productsKey])).
Proof. by destruct c. Qed.
(** *** The three courses of an invocation *)

Lemma remoteCall_outcome c env variables w outcome :
  (∀ w, mutationFn (addProductMutation c env) variables w =
        (outcome,
         World.mk (World.client w) (World.form w) (World.status w)
                  (World.trace w ++ issued c variables))) →
  remoteCall c env variables w = outcome.
Proof. intros Hrun. unfold remoteCall. by rewrite Hrun. Qed.

Lemma rollback_store (c : Component) (env : Env.t) (variables : NewProduct.t) (qs : gmap QueryKey ProductsQueryData.t) :
  match qs !! productsKey with
  | Some s => <[productsKey := s]> (speculated c env variables qs)
  | None => speculated c env variables qs
  end = qs.
Proof.
  unfold speculated. destruct (qs !! productsKey) as [s |] eqn:Hs.
  - rewrite updater_present, insert_insert_eq. by apply insert_id.
  - by rewrite updater_absent.
Qed.

Lemma mutate_begin_failed c env variables e qs st fe fo s tr :
  Env.cancellation env = Throws e →
  mutate (addProductMutation c env) variables
         (World.mk (QueryClient.mk qs st fe) fo s tr) =
  World.mk (QueryClient.mk qs ({[productsKey]} ∪ st) ({[productsKey]} ∪ fe))
           fo (IsError e)
           (tr ++ [CancelQueries productsKey; InvalidateQueries productsKey]).
Proof.
  intros Hc. unfold mutate, setStatus. cbn [World.client World.form World.trace].
  rewrite (onMutate_throws _ _ _ e) by done.
  rewrite onError_run. cbn [mbind option_bind].
  rewrite onSettled_run. unfold setStatus. cbn [World.client World.form World.trace].
  by rewrite <- app_assoc.
Qed.

Lemma mutate_remote_failed c env variables e qs st fe fo s tr :
  Env.cancellation env = Returns tt →
  remoteCall c env variables (World.mk (QueryClient.mk qs st fe) fo s tr) = Throws e →
  mutate (addProductMutation c env) variables
         (World.mk (QueryClient.mk qs st fe) fo s tr) =
  World.mk (QueryClient.mk qs ({[productsKey]} ∪ st)
                           ({[productsKey]} ∪ fe ∖ {[productsKey]}))
           fo (IsError e)
           (tr ++ beginEvents c env variables (qs !! productsKey)
               ++ issued c variables
               ++ rollbackEvents (qs !! productsKey)
               ++ [InvalidateQueries productsKey]).
Proof.
  intros Hc Hr.
  destruct (mutationFn_run c env variables) as (outcome & Hrun & _).
  rewrite (remoteCall_outcome _ _ _ _ _ Hrun) in Hr. subst outcome.
  destruct (onMutate_returns c env variables qs st fe fo Pending tr Hc)
    as (ctx & Hbegin & Hsnap).
  unfold mutate, setStatus. cbn [World.client World.form World.trace].
  rewrite Hbegin, Hrun. cbn [World.client World.form World.status World.trace].
  rewrite onError_run. cbn [mbind option_bind]. rewrite Hsnap.
  pose proof (rollback_store c env variables qs) as Hstore.
  unfold speculated in Hstore.
  destruct (qs !! productsKey) as [snapshot |] eqn:Hentry;
    rewrite onSettled_run; unfold setStatus, beginEvents, rollbackEvents;
    cbn [World.client World.form World.trace];
    rewrite Hstore, <- !app_assoc; reflexivity.
Qed.

Lemma mutate_remote_succeeded c env variables data qs st fe fo s tr :
  Env.cancellation env = Returns tt →
  remoteCall c env variables (World.mk (QueryClient.mk qs st fe) fo s tr) = Returns data →
  mutate (addProductMutation c env) variables
         (World.mk (QueryClient.mk qs st fe) fo s tr) =
  World.mk (QueryClient.mk (speculated c env variables qs) ({[productsKey]} ∪ st)
                           ({[productsKey]} ∪ fe ∖ {[productsKey]}))
           (Form.mk "" "") (IsSuccess data)
           (tr ++ beginEvents c env variables (qs !! productsKey)
               ++ issued c variables
               ++ [InvalidateQueries productsKey]).
Proof.
  intros Hc Hr.
  destruct (mutationFn_run c env variables) as (outcome & Hrun & _).
  rewrite (remoteCall_outcome _ _ _ _ _ Hrun) in Hr. subst outcome.
  destruct (onMutate_returns c env variables qs st fe fo Pending tr Hc)
    as (ctx & Hbegin & Hsnap).
  unfold mutate, setStatus. cbn [World.client World.form World.trace].
  rewrite Hbegin, Hrun. cbn [World.client World.form World.status World.trace].
  rewrite onSuccess_run, onSettled_run. unfold setStatus, beginEvents, speculated.
  cbn [World.client World.form World.trace].
  by rewrite <- !app_assoc.
Qed.

(** *** Counting events *)

Lemma count_app (p : Event → bool) (l1 l2 : list Event) :
  count p (l1 ++ l2) = (count p l1 + count p l2)%nat.
Proof. unfold count. by rewrite List.filter_app, length_app. Qed.

Lemma count_beginEvents_isInvalidate c env variables entry :
  count isInvalidate (beginEvents c env variables entry) = 0%nat.
Proof. reflexivity. Qed.

Lemma count_issued_isInvalidate c variables :
  count isInvalidate (issued c variables) = 0%nat.
Proof. by destruct c as [| []]. Qed.

Lemma count_rollbackEvents_isInvalidate snapshot :
  count isInvalidate (rollbackEvents snapshot) = 0%nat.
Proof. by destruct snapshot. Qed.

Lemma count_issued_isWrite c variables :
  count isWrite (issued c variables) = 0%nat.
Proof. by destruct c as [| []]. Qed.

(** ** Rollback on failure *)

(** The rollback writes the snapshot over whatever the store holds. *)
Lemma onError_restores (c : Component) (env : Env.t) (e : Error)
    (variables : NewProduct.t) (context : ContextOf c)
    (snapshot : ProductsQueryData.t) (w : World.t) :
  previousProducts context = Some snapshot →
  cached (snd (onError (addProductMutation c env) e variables (Some context) w))
  = Some snapshot.
Proof.
  intros Hsnap. open_world w. rewrite onError_run.
  cbn [mbind option_bind]. rewrite Hsnap. unfold cached.
  cbn [snd World.client QueryClient.queries]. apply lookup_insert_eq.
Qed.

(** C1.  When the remote call of an invocation fails, the begin phase had
    kept the entry under ['products'] as it was before the speculative
    write, and once [onError] has run the entry is equal to that snapshot;
    the whole store is as before the invocation, so nothing speculative is
    left, and the invocation ends in the error status.  The restore is
    wholesale: [onError] puts a snapshot it holds over the entry whatever
    the store contains at that time. *)
Theorem rollback_restores_snapshot (c : Component) (env : Env.t)
    (variables : NewProduct.t) (w : World.t) (e : Error) :
  Env.cancellation env = Returns tt →
  remoteCall c env variables w = Throws e →
  let w' := mutate (addProductMutation c env) variables w in
  (∃ context : ContextOf c,
     fst (onMutate (addProductMutation c env) variables (setStatus Pending w))
       = Returns context ∧
     previousProducts context = cached w ∧
     cached w' = previousProducts context) ∧
  QueryClient.queries (World.client w') = QueryClient.queries (World.client w) ∧
  World.status w' = IsError e ∧
  (∀ (context : ContextOf c) snapshot w2,
     previousProducts context = Some snapshot →
     cached (snd (onError (addProductMutation c env) e variables
                          (Some context) w2)) = Some snapshot).
Proof.
  intros Hc Hr w'. subst w'. open_world w.
  rewrite (mutate_remote_failed _ _ _ e) by done.
  repeat split; try reflexivity.
  - destruct (onMutate_returns c env variables queries stale fetching form
                               Pending trace Hc) as (ctx & Hbegin & Hsnap).
    exists ctx. unfold setStatus.
    cbn [World.client World.form World.trace]. rewrite Hbegin.
    by repeat split.
  - intros. by apply onError_restores.
Qed.

Lemma rollback_restores_snapshot_witness :
  cached (mutate (addProductMutation Optimistic Sample.rejects)
                 Sample.pen Sample.loaded) = Some Sample.listed ∧
  World.status (mutate (addProductMutation Optimistic Sample.rejects)
                       Sample.pen Sample.loaded) = IsError "Failed to fetch".
Proof.
  destruct (rollback_restores_snapshot Optimistic Sample.rejects Sample.pen
              Sample.loaded "Failed to fetch" eq_refl eq_refl)
    as ((context & _ & Hsnap & Hcached) & _ & Hstatus & _).
  split; [| exact Hstatus].
  exact (eq_trans Hcached Hsnap).
Defined.

(** ** The speculative write *)

(** C2, as stated, fails when the list has not been loaded: the begin phase
    returns, and the entry is absent before and after it, so the item count
    has not grown by one.  It also fails on a loaded list whose total is
    2^53: the placeholder is put in front, but the total, to which one is
    added in binary64, is the same number after the begin phase as
    before. *)
Lemma speculative_write_unloaded_counterexample :
  (∃ context,
     fst (onMutate (addProductMutation Optimistic Sample.succeeds) Sample.pen
                   (setStatus Pending Sample.unloaded)) = Returns context) ∧
  cached Sample.unloaded = None ∧
  cached (begun Optimistic Sample.succeeds Sample.pen Sample.unloaded) = None ∧
  itemCount (cached (begun Optimistic Sample.succeeds Sample.pen Sample.unloaded))
    = 0%nat ∧
  S (itemCount (cached Sample.unloaded)) = 1%nat ∧
  itemCount (cached (begun Optimistic Sample.succeeds Sample.pen Sample.unloaded))
    ≠ S (itemCount (cached Sample.unloaded)) ∧
  cached Sample.saturated = Some Sample.saturatedList ∧
  ProductsQueryData.total Sample.saturatedList = 9007199254740992%float ∧
  (ProductsQueryData.total
     <$> cached (begun Optimistic Sample.succeeds Sample.pen Sample.saturated))
    = Some 9007199254740992%float ∧
  (ProductsQueryData.total
     <$> cached (begun (Demo normal) Sample.succeeds Sample.pen Sample.saturated))
    = Some 9007199254740992%float.
Proof.
  split; [eexists; reflexivity |].
  repeat split. discriminate.
Qed.

(** C2, amended.  When the entry under ['products'] is present and the begin
    phase returns, the entry then holds one item more: the placeholder, made
    of the input and the clock reading, stands first, the items held before
    follow it unchanged, and the total is the binary64 sum of the total held
    before and one.  No request has been
    issued by then: the begin phase performed the cancellation, the read and
    the write, and nothing else. *)
Theorem speculative_write_prepends (c : Component) (env : Env.t)
    (variables : NewProduct.t) (w w1 : World.t) (context : ContextOf c)
    (oldData : ProductsQueryData.t) :
  cached w = Some oldData →
  onMutate (addProductMutation c env) variables w = (Returns context, w1) →
  ∃ newData,
    cached w1 = Some newData ∧
    ProductsQueryData.products newData =
      optimisticProduct c (Env.now env) variables
        :: ProductsQueryData.products oldData ∧
    itemCount (cached w1) = S (itemCount (cached w)) ∧
    ProductsQueryData.total newData
      = (ProductsQueryData.total oldData + 1)%float ∧
    ProductResponse.id (optimisticProduct c (Env.now env) variables) = Env.now env ∧
    ProductResponse.title (optimisticProduct c (Env.now env) variables)
      = NewProduct.title variables ∧
    ProductResponse.price (optimisticProduct c (Env.now env) variables)
      = NewProduct.price variables ∧
    World.trace w1 = World.trace w ++ beginEvents c env variables (cached w) ∧
    count isFetch (World.trace w1) = count isFetch (World.trace w).
Proof.
  intros Hold Hbegin. open_world w. unfold cached in Hold.
  cbn [World.client QueryClient.queries] in Hold.
  destruct (Env.cancellation env) as [[] | e] eqn:Hc.
  - destruct (onMutate_returns c env variables queries stale fetching form
                               status trace Hc) as (ctx & Hrun & _).
    rewrite Hrun in Hbegin. injection Hbegin as <- <-.
    unfold cached. cbn [World.client World.trace QueryClient.queries].
    rewrite Hold, updater_present.
    eexists; split; [apply lookup_insert_eq |].
    rewrite lookup_insert_eq, count_app.
    repeat split; by destruct c.
  - rewrite (onMutate_throws _ _ _ e) in Hbegin by done. discriminate.
Qed.

Lemma speculative_write_prepends_witness :
  ∃ newData,
    cached (begun Optimistic Sample.succeeds Sample.pen Sample.loaded)
      = Some newData ∧
    ProductsQueryData.products newData =
      optimisticProduct Optimistic Sample.clock Sample.pen :: [Sample.A] ∧
    ProductsQueryData.total newData = 195%float.
Proof.
  destruct (speculative_write_prepends Optimistic Sample.succeeds Sample.pen
              (setStatus Pending Sample.loaded) _ _ Sample.listed
              eq_refl eq_refl)
    as (newData & Hcached & Hitems & _ & Htotal & _).
  exists newData. repeat split; assumption.
Defined.

(** ** What counts as a remote failure *)

(** In [AddProductOptimistic] a rejected request and a response without the
    [ok] flag both make the remote call throw. *)
Lemma optimistic_remoteCall_fails (env : Env.t) (variables : NewProduct.t)
    (w : World.t) :
  Env.cancellation env = Returns tt →
  match Env.remote env with
  | Throws e => remoteCall Optimistic env variables w = Throws e
  | Returns response =>
      Response.ok response = false →
      remoteCall Optimistic env variables w = Throws "Failed to add product"
  end.
Proof.
  intros Hc. destruct env as [now cancellation [[ok body] | e]];
    simpl in Hc; subst cancellation; open_world w.
  - simpl. intros ->. reflexivity.
  - reflexivity.
Qed.

(** In [OptimisticUpdateDemo] the [ok] flag is not read: the remote call
    completes with whatever the body parses to. *)
Lemma demo_remoteCall_ignores_ok (demoMode : DemoMode) (env : Env.t)
    (variables : NewProduct.t) (w : World.t) (response : Response.t) :
  demoMode ≠ error →
  Env.cancellation env = Returns tt →
  Env.remote env = Returns response →
  remoteCall (Demo demoMode) env variables w = Response.body response.
Proof.
  intros Hm Hc Hr. destruct env as [now cancellation remote].
  simpl in Hc, Hr. subst cancellation remote. open_world w.
  destruct demoMode; [reflexivity | reflexivity | done].
Qed.

(** C3.  A response with a failure status and a body that parses: the demo
    component ends in the success status and keeps the speculative entry
    (one store write, none for a rollback), in the normal and in the slow
    scenario, where [AddProductOptimistic] on the same input ends in the
    error status with the entry rolled back. *)
Theorem demo_takes_failure_status_for_success :
  let demo := mutate (addProductMutation (Demo normal) Sample.status500)
                     Sample.pen Sample.loaded in
  let slowDemo := mutate (addProductMutation (Demo slow) Sample.status500)
                         Sample.pen Sample.loaded in
  let sibling := mutate (addProductMutation Optimistic Sample.status500)
                        Sample.pen Sample.loaded in
  Env.remote Sample.status500
    = Returns (Response.mk false (Returns Sample.refusal)) ∧
  World.status demo = IsSuccess Sample.refusal ∧
  World.status slowDemo = IsSuccess Sample.refusal ∧
  cached demo =
    Some {| ProductsQueryData.products :=
              [optimisticProduct (Demo normal) Sample.clock Sample.pen; Sample.A];
            ProductsQueryData.total := 195;
            ProductsQueryData.skip := 0;
            ProductsQueryData.limit := 2 |} ∧
  count isWrite (World.trace demo) = 1%nat ∧
  World.status sibling = IsError "Failed to add product" ∧
  cached sibling = Some Sample.listed ∧
  count isWrite (World.trace sibling) = 2%nat.
Proof. repeat split. Qed.

(** X2.  In [AddProductOptimistic] a rejected request and a response with a
    failure status alike end the invocation in the error status, with the
    data of the store as before the invocation. *)
Theorem add_product_optimistic_failure_is_terminal (env : Env.t)
    (variables : NewProduct.t) (w : World.t) :
  Env.cancellation env = Returns tt →
  (∃ e, Env.remote env = Throws e) ∨
  (∃ response, Env.remote env = Returns response ∧ Response.ok response = false) →
  let w' := mutate (addProductMutation Optimistic env) variables w in
  (∃ e, World.status w' = IsError e) ∧
  QueryClient.queries (World.client w') = QueryClient.queries (World.client w).
Proof.
  intros Hc Hfail w'. subst w'.
  pose proof (optimistic_remoteCall_fails env variables w Hc) as Hr.
  assert (∃ e, remoteCall Optimistic env variables w = Throws e) as [e He].
  { destruct Hfail as [[e Hrej] | (response & Hres & Hok)].
    - rewrite Hrej in Hr. by exists e.
    - rewrite Hres in Hr. eexists. by apply Hr. }
  open_world w. rewrite (mutate_remote_failed _ _ _ e) by done.
  split; [by exists e | reflexivity].
Qed.

Lemma add_product_optimistic_failure_is_terminal_witness :
  QueryClient.queries
    (World.client (mutate (addProductMutation Optimistic Sample.status500)
                          Sample.pen Sample.loaded))
  = QueryClient.queries (World.client Sample.loaded).
Proof.
  exact (proj2 (add_product_optimistic_failure_is_terminal Sample.status500
                  Sample.pen Sample.loaded eq_refl
                  (or_intror (ex_intro _ _ (conj eq_refl eq_refl))))).
Defined.

(** ** The success path *)

(** X3.  When the remote call returns, the invocation ends in the success
    status with the speculative entry still in the store and the form
    reset; after the begin phase it has issued its request and the
    invalidation, and no write. *)
Theorem success_keeps_speculative_entry (c : Component) (env : Env.t)
    (variables : NewProduct.t) (w : World.t) (data : ProductResponse.t) :
  Env.cancellation env = Returns tt →
  remoteCall c env variables w = Returns data →
  let w' := mutate (addProductMutation c env) variables w in
  World.status w' = IsSuccess data ∧
  cached w' = match updater c env variables (cached w) with
              | Some written => Some written
              | None => cached w
              end ∧
  World.form w' = Form.mk "" "" ∧
  World.trace w' =
    World.trace w ++ beginEvents c env variables (cached w)
      ++ issued c variables ++ [InvalidateQueries productsKey].
Proof.
  intros Hc Hr w'. subst w'. open_world w.
  rewrite (mutate_remote_succeeded _ _ _ data) by done.
  unfold cached, speculated.
  cbn [World.client World.form World.status World.trace QueryClient.queries].
  repeat split.
  destruct (updater c env variables (queries !! productsKey));
    [apply lookup_insert_eq | reflexivity].
Qed.

Lemma success_keeps_speculative_entry_witness :
  World.status (mutate (addProductMutation (Demo slow) Sample.succeeds)
                       Sample.pen Sample.loaded) = IsSuccess Sample.created.
Proof.
  exact (proj1 (success_keeps_speculative_entry (Demo slow) Sample.succeeds
                  Sample.pen Sample.loaded Sample.created eq_refl eq_refl)).
Defined.

(** ** Settle *)

(** C4.  An invocation whose begin phase completes, and so reaches the
    remote call, settles once whatever the remote call completes with: one
    more invalidation of ['products'] has been issued when it ends, it is
    the last operation of the invocation, and the entry is then marked
    stale with a refetch scheduled. *)
Theorem settle_runs_once (c : Component) (env : Env.t)
    (variables : NewProduct.t) (w : World.t) :
  Env.cancellation env = Returns tt →
  let w' := mutate (addProductMutation c env) variables w in
  count isInvalidate (World.trace w') = S (count isInvalidate (World.trace w)) ∧
  last (World.trace w') = Some (InvalidateQueries productsKey) ∧
  productsKey ∈ QueryClient.stale (World.client w') ∧
  productsKey ∈ QueryClient.fetching (World.client w').
Proof.
  intros Hc w'. subst w'. open_world w.
  destruct (remoteCall c env variables
              (World.mk (QueryClient.mk queries stale fetching) form status trace))
    as [data | e] eqn:Hr.
  - rewrite (mutate_remote_succeeded _ _ _ data) by done.
    cbn [World.client World.trace QueryClient.stale QueryClient.fetching].
    rewrite !app_assoc, last_snoc, !count_app.
    rewrite count_beginEvents_isInvalidate, count_issued_isInvalidate.
    repeat split; [cbn [count List.filter isInvalidate length]; lia | set_solver ..].
  - rewrite (mutate_remote_failed _ _ _ e) by done.
    cbn [World.client World.trace QueryClient.stale QueryClient.fetching].
    rewrite !app_assoc, last_snoc, !count_app.
    rewrite count_beginEvents_isInvalidate, count_issued_isInvalidate,
      count_rollbackEvents_isInvalidate.
    repeat split; [cbn [count List.filter isInvalidate length]; lia | set_solver ..].
Qed.

Lemma settle_runs_once_witness :
  count isInvalidate
    (World.trace (mutate (addProductMutation (Demo error) Sample.rejects)
                         Sample.pen Sample.loaded)) = 1%nat.
Proof.
  exact (proj1 (settle_runs_once (Demo error) Sample.rejects Sample.pen
                                 Sample.loaded eq_refl)).
Defined.

(** ** Validation *)

Lemma falsy_empty (s : string) : falsy s = true ↔ s = "".
Proof. destruct s; simpl; split; intros; done. Qed.

Lemma falsy_nonempty (s : string) : s ≠ "" → falsy s = false.
Proof. by destruct s. Qed.

(** X1.  A valid form goes on to the mutation, with the trimmed title and
    the parsed price as its input. *)
Theorem handleSubmit_valid {builtins : Builtins} (c : Component) (env : Env.t) (w : World.t) :
  valid (World.form w) →
  handleSubmit c env w =
  mutate (addProductMutation c env)
         {| NewProduct.title := trim (Form.title (World.form w));
            NewProduct.price := parseFloat (Form.price (World.form w)) |} w.
Proof.
  intros (Ht & Hp & Hnan & Hpos).
  apply falsy_nonempty in Ht as Ht', Hp as Hp'.
  destruct c; cbn [handleSubmit];
    unfold AddProductOptimistic.handleSubmit, OptimisticUpdateDemo.handleSubmit;
    cbv zeta; by rewrite Ht', Hp', Hnan, Hpos.
Qed.

Lemma handleSubmit_valid_witness :
  handleSubmit (builtins := Sample.tabulated) (Demo normal) Sample.succeeds
               Sample.loaded
  = mutate (addProductMutation (Demo normal) Sample.succeeds) Sample.pen
           Sample.loaded.
Proof.
  refine (handleSubmit_valid (builtins := Sample.tabulated) (Demo normal)
            Sample.succeeds Sample.loaded _).
  repeat split; discriminate.
Defined.

(** C5.  A form whose title trims to the empty string, or whose price does
    not parse to a number, or parses to a number not above zero, is turned
    away by the submit handler: the store, the form and the mutation status
    are as before, no request is issued, and the only operations performed
    are alerts. *)
Theorem invalid_input_rejected {builtins : Builtins} (c : Component) (env : Env.t)
    (w : World.t) :
  trim (Form.title (World.form w)) = "" ∨
  PrimFloat.is_nan (parseFloat (Form.price (World.form w))) = true ∨
  PrimFloat.leb (parseFloat (Form.price (World.form w))) 0 = true →
  let w' := handleSubmit c env w in
  World.client w' = World.client w ∧
  World.form w' = World.form w ∧
  World.status w' = World.status w ∧
  count isFetch (World.trace w') = count isFetch (World.trace w) ∧
  count isWrite (World.trace w') = count isWrite (World.trace w) ∧
  ∃ alerts,
    World.trace w' = World.trace w ++ alerts ∧
    Forall (λ e, ∃ message, e = Alert message) alerts.
Proof.
  intros Hbad w'. subst w'.
  assert (falsy (trim (Form.title (World.form w)))
          || falsy (trim (Form.price (World.form w))) = true
          ∨ PrimFloat.is_nan (parseFloat (Form.price (World.form w)))
            || PrimFloat.leb (parseFloat (Form.price (World.form w))) 0 = true)
    as Hguard.
  { destruct Hbad as [Ht | [Hn | Hl]].
    - left. apply falsy_empty in Ht. by rewrite Ht.
    - right. by rewrite Hn.
    - right. rewrite Hl. apply orb_true_r. }
  destruct w as [cl fo st tr].
  cbn [World.form World.client World.status World.trace] in *.
  destruct c; cbn [handleSubmit];
    unfold AddProductOptimistic.handleSubmit, OptimisticUpdateDemo.handleSubmit;
    cbv zeta; cbn [World.form];
    destruct (falsy (trim (Form.title fo)) || falsy (trim (Form.price fo)));
    try (destruct (PrimFloat.is_nan (parseFloat (Form.price fo))
                   || PrimFloat.leb (parseFloat (Form.price fo)) 0);
         [| by destruct Hguard]);
    cbn [alert log snd World.client World.form World.status World.trace];
    rewrite ?count_app; cbn [count List.filter isFetch isWrite length];
    repeat split; try lia;
    first [ by (eexists [_]; split; [reflexivity | repeat constructor; eauto])
          | by (exists []; split; [by rewrite app_nil_r | constructor]) ].
Qed.

Lemma invalid_input_rejected_witness :
  World.client
    (handleSubmit (builtins := Sample.tabulated) Optimistic Sample.succeeds
       (World.mk (World.client Sample.loaded) (Form.mk "  " "1.5") Idle []))
  = World.client Sample.loaded.
Proof.
  exact (proj1 (invalid_input_rejected (builtins := Sample.tabulated) Optimistic
                  Sample.succeeds
                  (World.mk (World.client Sample.loaded) (Form.mk "  " "1.5")
                            Idle [])
                  (or_introl eq_refl))).
Defined.

(** ** Temporary ids *)

(** The temporary id of a placeholder is the clock reading of its
    invocation. *)
Lemma temporary_id_is_clock_reading (c : Component) (env : Env.t)
    (variables : NewProduct.t) :
  ProductResponse.id (optimisticProduct c (Env.now env) variables) = Env.now env.
Proof. by destruct c. Qed.

(** X4.  Two submissions on a loaded list, the second beginning while the
    placeholder of the first is still in the list: after the two begin
    phases the list starts with the placeholder of the second, then that of
    the first, each carrying the clock reading of its own invocation as
    its id, so the two ids differ when the two readings do. *)
Theorem temporary_ids_differ_with_clock (c : Component) (env1 env2 : Env.t)
    (v1 v2 : NewProduct.t) (w w1 w2 : World.t) (ctx1 ctx2 : ContextOf c)
    (old : ProductsQueryData.t) :
  Env.now env1 ≠ Env.now env2 →
  cached w = Some old →
  onMutate (addProductMutation c env1) v1 w = (Returns ctx1, w1) →
  onMutate (addProductMutation c env2) v2 w1 = (Returns ctx2, w2) →
  ∃ p1 p2,
    (ProductsQueryData.products <$> cached w1)
      = Some (p1 :: ProductsQueryData.products old) ∧
    (ProductsQueryData.products <$> cached w2)
      = Some (p2 :: p1 :: ProductsQueryData.products old) ∧
    ProductResponse.id p1 = Env.now env1 ∧
    ProductResponse.id p2 = Env.now env2 ∧
    ProductResponse.title p1 = NewProduct.title v1 ∧
    ProductResponse.title p2 = NewProduct.title v2 ∧
    ProductResponse.id p1 ≠ ProductResponse.id p2.
Proof.
  intros Hclock Hold Hbegin1 Hbegin2. open_world w. unfold cached in Hold.
  cbn [World.client QueryClient.queries] in Hold.
  destruct (Env.cancellation env1) as [[] | e1] eqn:Hc1;
    [| rewrite (onMutate_throws _ _ _ e1) in Hbegin1 by done; discriminate].
  destruct (Env.cancellation env2) as [[] | e2] eqn:Hc2; cycle 1.
  { open_world w1. rewrite (onMutate_throws _ _ _ e2) in Hbegin2 by done.
    discriminate. }
  destruct (onMutate_returns c env1 v1 queries stale fetching form status trace
                             Hc1) as (ctx & Hrun1 & _).
  rewrite Hrun1 in Hbegin1. injection Hbegin1 as <- <-.
  rewrite Hold, updater_present in Hbegin2.
  match type of Hbegin2 with
  | onMutate _ _ (World.mk (QueryClient.mk ?qs ?st ?fe) ?fo ?s ?tr) = _ =>
      destruct (onMutate_returns c env2 v2 qs st fe fo s tr Hc2)
        as (ctx' & Hrun2 & _)
  end.
  rewrite Hrun2 in Hbegin2. injection Hbegin2 as <- <-.
  rewrite lookup_insert_eq, updater_present.
  unfold cached. cbn [World.client QueryClient.queries]. rewrite Hold.
  rewrite updater_present, !lookup_insert_eq.
  exists (optimisticProduct c (Env.now env1) v1),
         (optimisticProduct c (Env.now env2) v2).
  rewrite !temporary_id_is_clock_reading.
  repeat split; try done; by destruct c.
Qed.

Lemma temporary_ids_differ_with_clock_witness :
  ∃ p1 p2,
    ProductResponse.id p1 = 1700000000000 ∧
    ProductResponse.id p2 = 1700000000001 ∧
    ProductResponse.title p1 = "Pen" ∧
    ProductResponse.title p2 = "Ink".
Proof.
  pose (later := Env.mk 1700000000001 (Returns tt) (Throws "offline")).
  pose (w1 := snd (onMutate (addProductMutation Optimistic Sample.succeeds)
                            Sample.pen Sample.loaded)).
  pose (w2 := snd (onMutate (addProductMutation Optimistic later) Sample.ink w1)).
  assert (Env.now Sample.succeeds ≠ Env.now later) as Hclock.
  { intros H. apply (f_equal Z.odd) in H. vm_compute in H. discriminate H. }
  assert (onMutate (addProductMutation Optimistic Sample.succeeds) Sample.pen
                   Sample.loaded
          = (Returns (AddProductOptimistic.mkContext (Some Sample.listed) "Pen"),
             w1)) as H1.
  { vm_compute. reflexivity. }
  assert (onMutate (addProductMutation Optimistic later) Sample.ink w1
          = (Returns (AddProductOptimistic.mkContext (cached w1) "Ink"), w2))
    as H2.
  { vm_compute. reflexivity. }
  destruct (temporary_ids_differ_with_clock Optimistic Sample.succeeds later
              Sample.pen Sample.ink Sample.loaded w1 w2 _ _ Sample.listed
              Hclock eq_refl H1 H2)
    as (p1 & p2 & _ & _ & Hid1 & Hid2 & Ht1 & Ht2 & _).
  exists p1, p2. repeat split; assumption.
Defined.

(** C6.  Two invocations that read the same value off the clock: after the
    first has succeeded and before the refetch has replaced the list, the
    second puts its placeholder in front, and the two placeholders carry the
    same id. *)
Theorem temporary_ids_collide :
  let first := mutate (addProductMutation Optimistic Sample.succeeds)
                      Sample.pen Sample.loaded in
  let second := begun Optimistic Sample.succeeds Sample.ink first in
  Env.now Sample.succeeds = Sample.clock ∧
  (ProductsQueryData.products <$> cached second) =
    Some [optimisticProduct Optimistic Sample.clock Sample.ink;
          optimisticProduct Optimistic Sample.clock Sample.pen;
          Sample.A] ∧
  ProductResponse.id (optimisticProduct Optimistic Sample.clock Sample.ink) =
  ProductResponse.id (optimisticProduct Optimistic Sample.clock Sample.pen) ∧
  ProductResponse.title (optimisticProduct Optimistic Sample.clock Sample.ink) = "Ink" ∧
  ProductResponse.title (optimisticProduct Optimistic Sample.clock Sample.pen) = "Pen".
Proof. repeat split. Qed.

(** ** Order of the begin phase *)

(** C7.  In an invocation the cancellation is issued first, and the read
    and the speculative write follow only once it has completed: when it
    fails, the invocation never calls [setQueryData] and issues no request.
    When it completes, the begin phase leaves off with the written entry
    readable from the store and with no request issued yet; the request of
    the remote call comes after it, and no other request follows. *)
Theorem begin_phase_ordering (c : Component) (env : Env.t)
    (variables : NewProduct.t) (w : World.t) :
  let w1 := begun c env variables w in
  let w' := mutate (addProductMutation c env) variables w in
  match Env.cancellation env with
  | Returns _ =>
      World.trace w1 =
        World.trace w ++
        [CancelQueries productsKey; GetQueryData productsKey;
         SetQueryData productsKey (updater c env variables (cached w))] ∧
      fst (getQueryData productsKey w1) =
        Returns (match updater c env variables (cached w) with
                 | Some written => Some written
                 | None => cached w
                 end) ∧
      count isFetch (World.trace w1) = count isFetch (World.trace w) ∧
      ∃ rest,
        World.trace w' = World.trace w1 ++ issued c variables ++ rest ∧
        count isFetch rest = 0%nat
  | Throws e =>
      count isSetQueryData (World.trace w')
        = count isSetQueryData (World.trace w) ∧
      count isFetch (World.trace w') = count isFetch (World.trace w)
  end.
Proof.
  intros w1 w'. subst w1 w'. open_world w.
  destruct (Env.cancellation env) as [[] | e] eqn:Hc.
  - destruct (onMutate_returns c env variables queries stale fetching form
                               Pending trace Hc) as (ctx & Hbegin & _).
    unfold begun, setStatus, cached.
    cbn [World.client World.form World.trace QueryClient.queries].
    rewrite Hbegin. cbn [snd World.trace].
    split; [reflexivity |]. split.
    { unfold getQueryData, getClient, log, bind, ret.
      cbn [fst World.client QueryClient.queries].
      destruct (updater c env variables (queries !! productsKey)) as [d |];
        [by rewrite lookup_insert_eq | reflexivity]. }
    split; [rewrite count_app; cbn; lia |].
    destruct (remoteCall c env variables
                (World.mk (QueryClient.mk queries stale fetching) form status trace))
      as [data | e] eqn:Hr.
    + rewrite (mutate_remote_succeeded _ _ _ data) by done.
      exists [InvalidateQueries productsKey]. cbn [World.trace].
      by rewrite <- !app_assoc.
    + rewrite (mutate_remote_failed _ _ _ e) by done.
      exists (rollbackEvents (queries !! productsKey)
              ++ [InvalidateQueries productsKey]).
      cbn [World.trace]. split; [by rewrite <- !app_assoc |].
      by destruct (queries !! productsKey).
  - rewrite (mutate_begin_failed _ _ _ e) by done.
    cbn [World.trace]. rewrite !count_app. split; cbn; lia.
Qed.

(** ** Algebra of the rollback *)

(** C8.  Running the rollback a second time with the same snapshot changes
    nothing in the store: the data, the stale marks and the scheduled
    refetches are those left by the first run. *)
Theorem rollback_idempotent (c : Component) (env : Env.t) (e : Error)
    (variables : NewProduct.t) (context : option (ContextOf c)) (w : World.t) :
  let rollback := λ w, snd (onError (addProductMutation c env) e variables context w) in
  World.client (rollback (rollback w)) = World.client (rollback w) ∧
  cached (rollback (rollback w)) = cached (rollback w).
Proof.
  intros rollback. subst rollback. cbv beta.
  assert (World.client
            (snd (onError (addProductMutation c env) e variables context
                    (snd (onError (addProductMutation c env) e variables context w))))
          = World.client (snd (onError (addProductMutation c env) e variables context w)))
    as Hclient.
  { open_world w. rewrite onError_run.
    destruct (context ≫= previousProducts) as [snapshot |] eqn:Hsnap;
      cbn [snd]; rewrite onError_run, Hsnap; cbn [snd World.client];
      [by rewrite insert_insert_eq | reflexivity]. }
  split; [exact Hclient |]. unfold cached. by rewrite Hclient.
Qed.

(** ** Frame of the speculative write *)

(** C9.  With the entry present, the begin phase leaves [skip] and [limit]
    of the entry as they were and keeps the items held before as the tail
    of the new sequence; the entries under other keys, the stale marks, the
    form and the status are untouched. *)
Theorem speculative_write_frame (c : Component) (env : Env.t)
    (variables : NewProduct.t) (w : World.t) (oldData : ProductsQueryData.t) :
  cached w = Some oldData →
  let w1 := snd (onMutate (addProductMutation c env) variables w) in
  (∃ newData added,
     cached w1 = Some newData ∧
     ProductsQueryData.skip newData = ProductsQueryData.skip oldData ∧
     ProductsQueryData.limit newData = ProductsQueryData.limit oldData ∧
     ProductsQueryData.products newData =
       added ++ ProductsQueryData.products oldData) ∧
  (∀ queryKey : QueryKey,
     queryKey ≠ productsKey →
     QueryClient.queries (World.client w1) !! queryKey =
     QueryClient.queries (World.client w) !! queryKey) ∧
  QueryClient.stale (World.client w1) = QueryClient.stale (World.client w) ∧
  World.form w1 = World.form w ∧
  World.status w1 = World.status w.
Proof.
  intros Hold w1. subst w1. open_world w. unfold cached in *.
  cbn [World.client QueryClient.queries] in Hold.
  destruct (Env.cancellation env) as [[] | e] eqn:Hc.
  - destruct (onMutate_returns c env variables queries stale fetching form
                               status trace Hc) as (ctx & Hbegin & _).
    rewrite Hbegin, Hold, updater_present.
    cbn [snd World.client World.form World.status QueryClient.queries
         QueryClient.stale].
    repeat split.
    + eexists _, [_]. rewrite lookup_insert_eq. by repeat split.
    + intros queryKey Hne. by rewrite lookup_insert_ne.
  - rewrite (onMutate_throws _ _ _ e) by done.
    cbn [snd World.client World.form World.status QueryClient.queries
         QueryClient.stale].
    repeat split. exists oldData, []. by repeat split.
Qed.

Lemma speculative_write_frame_witness :
  ∃ newData,
    cached (snd (onMutate (addProductMutation (Demo slow) Sample.succeeds)
                          Sample.ink Sample.loaded)) = Some newData ∧
    ProductsQueryData.skip newData = 0 ∧
    ProductsQueryData.limit newData = 2.
Proof.
  destruct (speculative_write_frame (Demo slow) Sample.succeeds Sample.ink
              Sample.loaded Sample.listed eq_refl)
    as ((newData & added & Hcached & Hskip & Hlimit & _) & _).
  exists newData. repeat split; assumption.
Defined.

(** ** An entry that was never loaded *)

(** C10.  With the entry absent when the invocation starts, the updater of
    the begin phase returns the absent marker, and the invocation ends with
    the store's data as it found them, the entry still absent and no write
    performed, whatever the cancellation and the remote call complete with;
    a rollback whose snapshot is absent leaves the world as it is. *)
Theorem absent_entry_stays_absent (c : Component) (env : Env.t)
    (variables : NewProduct.t) (w : World.t) :
  cached w = None →
  let w' := mutate (addProductMutation c env) variables w in
  updater c env variables None = None ∧
  QueryClient.queries (World.client w') = QueryClient.queries (World.client w) ∧
  cached w' = None ∧
  count isWrite (World.trace w') = count isWrite (World.trace w) ∧
  (∀ (e : Error) (context : ContextOf c) (w2 : World.t),
     previousProducts context = None →
     snd (onError (addProductMutation c env) e variables (Some context) w2) = w2).
Proof.
  intros Habsent w'. subst w'.
  split; [apply updater_absent |].
  assert (∀ (e : Error) (context : ContextOf c) (w2 : World.t),
            previousProducts context = None →
            snd (onError (addProductMutation c env) e variables (Some context) w2)
            = w2) as Hskip.
  { intros e context w2 Hnone. open_world w2. rewrite onError_run.
    cbn [mbind option_bind]. by rewrite Hnone. }
  open_world w. unfold cached in *.
  cbn [World.client QueryClient.queries] in Habsent.
  destruct (Env.cancellation env) as [[] | e] eqn:Hc.
  - destruct (remoteCall c env variables
                (World.mk (QueryClient.mk queries stale fetching) form status trace))
      as [data | e] eqn:Hr.
    + rewrite (mutate_remote_succeeded _ _ _ data) by done.
      unfold speculated, beginEvents. rewrite Habsent, updater_absent.
      cbn [World.client World.trace QueryClient.queries].
      rewrite !count_app, count_issued_isWrite.
      repeat split; [done | cbn; lia | done].
    + rewrite (mutate_remote_failed _ _ _ e) by done.
      unfold beginEvents. rewrite Habsent, updater_absent.
      cbn [World.client World.trace QueryClient.queries].
      rewrite !count_app, count_issued_isWrite.
      repeat split; [done | cbn; lia | done].
  - rewrite (mutate_begin_failed _ _ _ e) by done.
    cbn [World.client World.trace QueryClient.queries]. rewrite count_app.
    repeat split; [done | cbn; lia | done].
Qed.

Lemma absent_entry_stays_absent_witness :
  cached (mutate (addProductMutation (Demo error) Sample.rejects)
                 Sample.pen Sample.unloaded) = None ∧
  count isWrite
    (World.trace (mutate (addProductMutation (Demo error) Sample.rejects)
                         Sample.pen Sample.unloaded)) = 0%nat.
Proof.
  destruct (absent_entry_stays_absent (Demo error) Sample.rejects Sample.pen
              Sample.unloaded eq_refl) as (_ & _ & Hcached & Hwrites & _).
  split; assumption.
Defined.

(** ** The pessimistic update *)

(** The remote call of [AddProduct] leaves store, form and status alone and
    issues one request. *)
Lemma addProduct_mutationFn_run (env : Env.t) (variables : NewProduct.t) :
  ∃ outcome,
    ∀ w, AddProduct.mutationFn env variables w =
         (outcome,
          World.mk (World.client w) (World.form w) (World.status w)
                   (World.trace w ++ [Fetch addUrl variables])).
Proof.
  destruct env as [now cancellation [[ok body] | e]]; try destruct ok;
    (eexists; intros [? ? ? ?]; reflexivity).
Qed.

(** The two courses of an invocation of [AddProduct]. *)
Lemma addProduct_mutate_run (env : Env.t) (variables : NewProduct.t)
    (outcome : Completion ProductResponse.t) qs st fe fo s tr :
  (∀ w, AddProduct.mutationFn env variables w =
        (outcome,
         World.mk (World.client w) (World.form w) (World.status w)
                  (World.trace w ++ [Fetch addUrl variables]))) →
  mutate (AddProduct.addProductMutation env) variables
         (World.mk (QueryClient.mk qs st fe) fo s tr) =
  match outcome with
  | Throws e =>
      World.mk (QueryClient.mk qs st fe) fo (IsError e)
               (tr ++ [Fetch addUrl variables])
  | Returns data =>
      World.mk (QueryClient.mk qs ({[productsKey]} ∪ st) ({[productsKey]} ∪ fe))
               (Form.mk "" "") (IsSuccess data)
               (tr ++ [Fetch addUrl variables; InvalidateQueries productsKey])
  end.
Proof.
  intros Hrun. unfold mutate, AddProduct.addProductMutation, setStatus.
  cbn [onMutate mutationFn onError onSuccess onSettled World.client World.form
       World.trace].
  unfold ret at 1. cbv beta iota zeta. rewrite Hrun.
  destruct outcome as [data | e]; [| reflexivity].
  unfold AddProduct.onSuccess, invalidateQueries, setTitle, setPrice, setStatus,
    bind, log, getClient, putClient, ret.
  cbn [World.client World.form World.status World.trace QueryClient.queries
       QueryClient.stale QueryClient.fetching Form.title Form.price].
  by rewrite <- app_assoc.
Qed.

(** X5.  An invocation of the pessimistic [AddProduct] never reads, writes
    or cancels anything in the store.  When its remote call fails it ends
    in the error status with store and form untouched, having issued its
    request and nothing else; when the call returns it ends in the success
    status with the data of the store still untouched, the entry
    invalidated once, and the form reset. *)
Theorem add_product_leaves_data_alone (env : Env.t) (variables : NewProduct.t)
    (w : World.t) :
  let w' := mutate (AddProduct.addProductMutation env) variables w in
  match fst (AddProduct.mutationFn env variables w) with
  | Throws e =>
      World.client w' = World.client w ∧
      World.form w' = World.form w ∧
      World.status w' = IsError e ∧
      World.trace w' = World.trace w ++ [Fetch addUrl variables]
  | Returns data =>
      QueryClient.queries (World.client w') = QueryClient.queries (World.client w) ∧
      QueryClient.stale (World.client w')
        = {[productsKey]} ∪ QueryClient.stale (World.client w) ∧
      World.form w' = Form.mk "" "" ∧
      World.status w' = IsSuccess data ∧
      World.trace w' =
        World.trace w ++ [Fetch addUrl variables; InvalidateQueries productsKey]
  end.
Proof.
  intros w'. subst w'.
  destruct (addProduct_mutationFn_run env variables) as [outcome Hrun].
  rewrite (Hrun w). cbn [fst]. open_world w.
  rewrite (addProduct_mutate_run env variables outcome) by exact Hrun.
  by destruct outcome.
Qed.

(** X6.  The submit handler of [AddProduct] is the one of
    [AddProductOptimistic]: a form that one turns away the other turns away
    with the same alert and nothing else changed, and a form that one
    accepts the other accepts, each starting its own mutation with the
    same input. *)
Theorem add_product_handleSubmit_unchanged {builtins : Builtins} (env : Env.t)
    (w : World.t) :
  let title := Form.title (World.form w) in
  let price := Form.price (World.form w) in
  if falsy (trim title) || falsy (trim price)
     || PrimFloat.is_nan (parseFloat price)
     || PrimFloat.leb (parseFloat price) 0
  then
    AddProduct.handleSubmit env w = AddProductOptimistic.handleSubmit env w ∧
    World.client (AddProduct.handleSubmit env w) = World.client w ∧
    World.status (AddProduct.handleSubmit env w) = World.status w ∧
    ∃ message, World.trace (AddProduct.handleSubmit env w)
               = World.trace w ++ [Alert message]
  else
    AddProduct.handleSubmit env w =
      mutate (AddProduct.addProductMutation env)
             {| NewProduct.title := trim title;
                NewProduct.price := parseFloat price |} w ∧
    AddProductOptimistic.handleSubmit env w =
      mutate (AddProductOptimistic.addProductMutation env)
             {| NewProduct.title := trim title;
                NewProduct.price := parseFloat price |} w.
Proof.
  cbv zeta. unfold AddProduct.handleSubmit, AddProductOptimistic.handleSubmit.
  cbv zeta.
  destruct (falsy (trim (Form.title (World.form w)))
            || falsy (trim (Form.price (World.form w)))); cbn [orb].
  - repeat split. by eexists.
  - destruct (PrimFloat.is_nan (parseFloat (Form.price (World.form w)))
              || PrimFloat.leb (parseFloat (Form.price (World.form w))) 0).
    + repeat split. by eexists.
    + by split.
Qed.

(** The remote call of [AddProduct] is the one of [AddProductOptimistic]. *)
Lemma addProduct_mutationFn_same (env : Env.t) (variables : NewProduct.t)
    (w : World.t) :
  AddProduct.mutationFn env variables w
  = AddProductOptimistic.mutationFn env variables w.
Proof. reflexivity. Qed.

(** X7.  On the same input and with the same answer from outside, the
    optimistic and the pessimistic component end alike: the same status
    (success with the same data, or the same error) and the same form.
    After a failure they hold the same data; after a success the entry of
    the optimistic one is the entry of the pessimistic one with the
    placeholder put in front. *)
Theorem optimistic_agrees_with_pessimistic (env : Env.t)
    (variables : NewProduct.t) (w : World.t) :
  Env.cancellation env = Returns tt →
  let o := mutate (addProductMutation Optimistic env) variables w in
  let p := mutate (AddProduct.addProductMutation env) variables w in
  World.status o = World.status p ∧
  World.form o = World.form p ∧
  match World.status p with
  | IsError _ =>
      QueryClient.queries (World.client o) = QueryClient.queries (World.client p)
  | _ =>
      cached o = match updater Optimistic env variables (cached p) with
                 | Some written => Some written
                 | None => cached p
                 end
  end.
Proof.
  intros Hc o p. subst o p.
  destruct (mutationFn_run Optimistic env variables) as (outcome & Hrun & _).
  destruct (addProduct_mutationFn_run env variables) as [outcome' Hrun'].
  assert (outcome' = outcome) as ->.
  { pose proof (Hrun' w) as H1. rewrite addProduct_mutationFn_same in H1.
    pose proof (Hrun w) as H2. cbn [addProductMutation] in H2.
    unfold AddProductOptimistic.addProductMutation in H2.
    cbn [mutationFn] in H2. congruence. }
  pose proof (remoteCall_outcome Optimistic env variables w outcome Hrun) as Hr.
  open_world w.
  rewrite (addProduct_mutate_run env variables outcome) by exact Hrun'.
  destruct outcome as [data | e].
  - rewrite (mutate_remote_succeeded _ _ _ data) by done.
    unfold cached, speculated.
    cbn [World.client World.form World.status QueryClient.queries].
    repeat split.
    destruct (updater Optimistic env variables (queries !! productsKey));
      [apply lookup_insert_eq | reflexivity].
  - rewrite (mutate_remote_failed _ _ _ e) by done. by repeat split.
Qed.

Lemma optimistic_agrees_with_pessimistic_witness :
  World.status (mutate (addProductMutation Optimistic Sample.status500)
                       Sample.pen Sample.loaded)
  = World.status (mutate (AddProduct.addProductMutation Sample.status500)
                         Sample.pen Sample.loaded).
Proof.
  exact (proj1 (optimistic_agrees_with_pessimistic Sample.status500 Sample.pen
                  Sample.loaded eq_refl)).
Defined.

(** ** Submissions under way at once *)

(** X8.  Two submissions whose begin phases have both run, the first then
    failing: its rollback puts back the entry as it was before either, so
    the placeholder of the second is gone although the second has not
    failed.  When the second fails after that, its rollback puts back the
    entry it had found, which holds the placeholder of the first: the first
    submission, rolled back, is in the list again.  The totals are those
    the begin phases computed, by adding one in binary64 once or twice. *)
Theorem overlapping_rollbacks (c : Component) (envA envB : Env.t)
    (a b : NewProduct.t) (eA eB : Error) (w : World.t)
    (old : ProductsQueryData.t) :
  cached w = Some old →
  Env.cancellation envA = Returns tt →
  Env.cancellation envB = Returns tt →
  let beganA := onMutate (addProductMutation c envA) a w in
  let beganB := onMutate (addProductMutation c envB) b (snd beganA) in
  ∃ (ctxA ctxB : ContextOf c),
    fst beganA = Returns ctxA ∧
    fst beganB = Returns ctxB ∧
    let failedA :=
      snd (onError (addProductMutation c envA) eA a (Some ctxA) (snd beganB)) in
    let failedB :=
      snd (onError (addProductMutation c envB) eB b (Some ctxB) failedA) in
    cached (snd beganB) =
      Some {| ProductsQueryData.products :=
                optimisticProduct c (Env.now envB) b
                  :: optimisticProduct c (Env.now envA) a
                  :: ProductsQueryData.products old;
              ProductsQueryData.total :=
                (ProductsQueryData.total old + 1 + 1)%float;
              ProductsQueryData.skip := ProductsQueryData.skip old;
              ProductsQueryData.limit := ProductsQueryData.limit old |} ∧
    cached failedA = Some old ∧
    cached failedB =
      Some {| ProductsQueryData.products :=
                optimisticProduct c (Env.now envA) a
                  :: ProductsQueryData.products old;
              ProductsQueryData.total :=
                (ProductsQueryData.total old + 1)%float;
              ProductsQueryData.skip := ProductsQueryData.skip old;
              ProductsQueryData.limit := ProductsQueryData.limit old |}.
Proof.
  intros Hold HcA HcB beganA beganB. subst beganA beganB.
  open_world w. unfold cached in Hold.
  cbn [World.client QueryClient.queries] in Hold.
  destruct (onMutate_returns c envA a queries stale fetching form status trace HcA)
    as (ctxA & HbeginA & HsnapA).
  rewrite HbeginA. cbn [fst snd]. rewrite Hold, updater_present in *.
  match goal with
  | |- context [onMutate _ b (World.mk (QueryClient.mk ?qs ?st ?fe) ?fo ?s ?tr)] =>
      destruct (onMutate_returns c envB b qs st fe fo s tr HcB)
        as (ctxB & HbeginB & HsnapB)
  end.
  rewrite HbeginB. cbn [fst snd].
  rewrite lookup_insert_eq, updater_present in *.
  exists ctxA, ctxB. split; [reflexivity |]. split; [reflexivity |].
  cbv zeta. rewrite !onError_run. cbn [mbind option_bind].
  rewrite HsnapA. cbn [snd]. rewrite onError_run. cbn [mbind option_bind].
  rewrite HsnapB. unfold cached.
  cbn [snd World.client QueryClient.queries ProductsQueryData.products
       ProductsQueryData.total ProductsQueryData.skip ProductsQueryData.limit].
  rewrite !lookup_insert_eq. destruct old. by repeat split.
Qed.

Lemma overlapping_rollbacks_witness :
  ∃ (ctxA ctxB : ContextOf Optimistic),
    cached
      (snd (onError (addProductMutation Optimistic Sample.rejects)
              "Failed to fetch" Sample.ink (Some ctxB)
              (snd (onError (addProductMutation Optimistic Sample.rejects)
                      "Failed to fetch" Sample.pen (Some ctxA)
                      (snd (onMutate (addProductMutation Optimistic Sample.rejects)
                              Sample.ink
                              (snd (onMutate
                                      (addProductMutation Optimistic Sample.rejects)
                                      Sample.pen Sample.loaded))))))))
    = Some {| ProductsQueryData.products :=
                [optimisticProduct Optimistic Sample.clock Sample.pen; Sample.A];
              ProductsQueryData.total := 195;
              ProductsQueryData.skip := 0;
              ProductsQueryData.limit := 2 |}.
Proof.
  destruct (overlapping_rollbacks Optimistic Sample.rejects Sample.rejects
              Sample.pen Sample.ink "Failed to fetch" "Failed to fetch"
              Sample.loaded Sample.listed eq_refl eq_refl eq_refl)
    as (ctxA & ctxB & _ & _ & _ & _ & Hlast).
  exists ctxA, ctxB. exact Hlast.
Defined.

Lemma placeholders_cons (c : Component) (s : Env.t * NewProduct.t)
    (rest : list (Env.t * NewProduct.t)) :
  placeholders c (s :: rest)
  = placeholders c rest ++ [optimisticProduct c (Env.now (fst s)) (snd s)].
Proof. reflexivity. Qed.

(** X9.  The begin phases of any number of submissions, run before any of
    them settles on a loaded list, pile their placeholders on top of the
    items held before, the latest first; the total has had one added to it
    in binary64 once for every submission, and [skip] and [limit] are as
    they were. *)
Theorem begin_phases_pile_up (c : Component)
    (submissions : list (Env.t * NewProduct.t)) (w : World.t)
    (old : ProductsQueryData.t) :
  cached w = Some old →
  Forall (λ s, Env.cancellation (fst s) = Returns tt) submissions →
  ∃ new,
    cached (beginAll c submissions w) = Some new ∧
    ProductsQueryData.products new
      = placeholders c submissions ++ ProductsQueryData.products old ∧
    ProductsQueryData.total new
      = Nat.iter (length submissions) (λ t, (t + 1)%float)
                 (ProductsQueryData.total old) ∧
    ProductsQueryData.skip new = ProductsQueryData.skip old ∧
    ProductsQueryData.limit new = ProductsQueryData.limit old.
Proof.
  intros Hold Hall. revert w old Hold.
  induction Hall as [| [env variables] rest Hc _ IH]; intros w old Hold.
  - exists old. cbn [beginAll length]. by repeat split.
  - cbn [beginAll]. cbn [fst] in Hc. open_world w. unfold cached in Hold.
    cbn [World.client QueryClient.queries] in Hold.
    destruct (onMutate_returns c env variables queries stale fetching form
                               status trace Hc) as (ctx & Hbegin & _).
    rewrite Hold, updater_present in Hbegin.
    edestruct (IH (snd (onMutate (addProductMutation c env) variables
                          (World.mk (QueryClient.mk queries stale fetching)
                                    form status trace))))
      as (new & Hnew & Hitems & Htotal & Hskip & Hlimit).
    { rewrite Hbegin. unfold cached. cbn [snd World.client QueryClient.queries].
      apply lookup_insert_eq. }
    exists new. rewrite Hnew, Hitems, Htotal, Hskip, Hlimit, placeholders_cons.
    cbn [ProductsQueryData.products ProductsQueryData.total
         ProductsQueryData.skip ProductsQueryData.limit fst snd length].
    rewrite <- app_assoc. repeat split. by rewrite Nat.iter_succ_r.
Qed.

Lemma begin_phases_pile_up_witness :
  ∃ new,
    cached (beginAll (Demo normal)
              [(Sample.succeeds, Sample.pen); (Sample.rejects, Sample.ink)]
              Sample.loaded) = Some new ∧
    ProductsQueryData.products new =
      [optimisticProduct (Demo normal) Sample.clock Sample.ink;
       optimisticProduct (Demo normal) Sample.clock Sample.pen;
       Sample.A] ∧
    ProductsQueryData.total new = 196%float.
Proof.
  destruct (begin_phases_pile_up (Demo normal)
              [(Sample.succeeds, Sample.pen); (Sample.rejects, Sample.ink)]
              Sample.loaded Sample.listed eq_refl
              ltac:(repeat constructor))
    as (new & Hnew & Hitems & Htotal & _).
  exists new. repeat split; assumption.
Defined.

(** ** What the list shows *)

(** X10.  With the list loaded and shown, the begin phase of a submission
    makes the list show one card more: the first card is the placeholder,
    keyed by the clock reading, with the submitted title as its heading and
    alternative text and the 150 by 150 stand-in picture of that clock
    reading as its image; the cards shown before follow it, unchanged. *)
Theorem placeholder_card_shown_first (c : Component) (env : Env.t)
    (variables : NewProduct.t) (w w1 : World.t) (context : ContextOf c)
    (old : ProductsQueryData.t) :
  cached w = Some old →
  onMutate (addProductMutation c env) variables w = (Returns context, w1) →
  ∃ card cards,
    ProductList.render (shown w) = ProductList.Products cards ∧
    ProductList.render (shown w1)
      = ProductList.Products ((Env.now env, card) :: cards) ∧
    length cards = length (ProductsQueryData.products old) ∧
    ProductCard.heading card = NewProduct.title variables ∧
    ProductCard.alt card = NewProduct.title variables ∧
    ProductCard.src card
      = Some ("https://picsum.photos/150/150?random=" +:+ pretty (Env.now env)) ∧
    ProductCard.onClick card = optimisticProduct c (Env.now env) variables.
Proof.
  intros Hold Hbegin. open_world w. unfold cached in Hold.
  cbn [World.client QueryClient.queries] in Hold.
  destruct (Env.cancellation env) as [[] | e] eqn:Hc.
  - destruct (onMutate_returns c env variables queries stale fetching form
                               status trace Hc) as (ctx & Hrun & _).
    rewrite Hrun in Hbegin. injection Hbegin as <- <-.
    unfold ProductList.render, shown, cached.
    cbn [ProductList.isPending ProductList.error ProductList.data
         World.client QueryClient.queries].
    rewrite Hold, updater_present, lookup_insert_eq.
    cbn [ProductsQueryData.products fmap list_fmap].
    rewrite temporary_id_is_clock_reading.
    eexists _, _. split; [reflexivity |]. split; [reflexivity |].
    rewrite length_fmap. by destruct c.
  - rewrite (onMutate_throws _ _ _ e) in Hbegin by done. discriminate.
Qed.

Lemma placeholder_card_shown_first_witness :
  ∃ card cards,
    ProductList.render
      (shown (begun (Demo slow) Sample.succeeds Sample.pen Sample.loaded))
    = ProductList.Products ((Sample.clock, card) :: cards) ∧
    ProductCard.heading card = "Pen".
Proof.
  destruct (placeholder_card_shown_first (Demo slow) Sample.succeeds Sample.pen
              (setStatus Pending Sample.loaded) _ _ Sample.listed
              eq_refl eq_refl)
    as (card & cards & _ & Hshown & _ & Hheading & _).
  exists card, cards. split; assumption.
Defined.

(** X11.  The cards are keyed by the ids of the products.  After the begin
    phase of a submission on a loaded list the keys are the clock reading
    followed by the keys held before, so they are free of repetition
    exactly when the keys held before were and the clock reading is not
    among them. *)
Theorem card_keys_after_write (c : Component) (env : Env.t)
    (variables : NewProduct.t) (w w1 : World.t) (context : ContextOf c)
    (old : ProductsQueryData.t) :
  cached w = Some old →
  onMutate (addProductMutation c env) variables w = (Returns context, w1) →
  ∃ new,
    cached w1 = Some new ∧
    ProductList.render (shown w1)
      = ProductList.Products
          ((λ product, (ProductResponse.id product, ProductCard.render product))
             <$> ProductsQueryData.products new) ∧
    keys new = Env.now env :: keys old ∧
    (NoDup (keys new) ↔ (Env.now env ∉ keys old) ∧ NoDup (keys old)).
Proof.
  intros Hold Hbegin. open_world w. unfold cached in Hold.
  cbn [World.client QueryClient.queries] in Hold.
  destruct (Env.cancellation env) as [[] | e] eqn:Hc.
  - destruct (onMutate_returns c env variables queries stale fetching form
                               status trace Hc) as (ctx & Hrun & _).
    rewrite Hrun in Hbegin. injection Hbegin as <- <-.
    unfold ProductList.render, shown, cached, keys.
    cbn [ProductList.isPending ProductList.error ProductList.data
         World.client QueryClient.queries].
    rewrite Hold, updater_present, lookup_insert_eq.
    eexists. split; [reflexivity |]. split; [reflexivity |].
    cbn [ProductsQueryData.products]. rewrite fmap_cons.
    rewrite temporary_id_is_clock_reading.
    split; [reflexivity | apply NoDup_cons].
  - rewrite (onMutate_throws _ _ _ e) in Hbegin by done. discriminate.
Qed.

Lemma card_keys_after_write_witness :
  ∃ new,
    cached (begun Optimistic Sample.succeeds Sample.pen Sample.loaded) = Some new ∧
    keys new = [Sample.clock; 1] ∧
    NoDup (keys new).
Proof.
  destruct (card_keys_after_write Optimistic Sample.succeeds Sample.pen
              (setStatus Pending Sample.loaded) _ _ Sample.listed
              eq_refl eq_refl)
    as (new & Hnew & _ & Hkeys & Hnodup).
  exists new. repeat split; [exact Hnew | exact Hkeys |].
  apply Hnodup. split.
  - intros Hin. apply list_elem_of_In in Hin. destruct Hin as [Heq | []].
    discriminate Heq.
  - repeat constructor. intros Hin. apply list_elem_of_In in Hin. destruct Hin.
Defined.

(** ** The page *)

(** X12.  When the list shows cards, its [i]-th card is the card of the
    [i]-th cached product and is keyed by its id.  A click on it makes the
    page show the detail of that product: its title, its description, and
    the first of its images, or no image when it has none.  A click on the
    back button then makes the page show the list again, as it was. *)
Theorem select_then_back (q : ProductList.QueryResult)
    (cards : list (Z * ProductCard.t)) (i : nat) (key : Z)
    (card : ProductCard.t) (selectedProduct : option ProductResponse.t) :
  ProductList.render q = ProductList.Products cards →
  cards !! i = Some (key, card) →
  ∃ data product,
    ProductList.data q = Some data ∧
    ProductsQueryData.products data !! i = Some product ∧
    key = ProductResponse.id product ∧
    card = ProductCard.render product ∧
    let selected :=
      App.handleProductSelect (ProductCard.onClick card) selectedProduct in
    App.render selected q =
      App.Detail
        {| ProductDetail.src := ProductResponse.images product ≫= head;
           ProductDetail.alt := ProductResponse.title product;
           ProductDetail.title := ProductResponse.title product;
           ProductDetail.heading := ProductResponse.title product;
           ProductDetail.paragraph := ProductResponse.description product |} ∧
    App.render (App.handleBackToList selected) q
      = App.List (ProductList.Products cards).
Proof.
  intros Hrender Hcard.
  assert (App.render None q = App.List (ProductList.Products cards)) as Hback.
  { cbn [App.render]. by rewrite Hrender. }
  unfold ProductList.render in Hrender.
  destruct (ProductList.isPending q); [discriminate |].
  destruct (ProductList.error q); [discriminate |].
  destruct (ProductList.data q) as [data |]; [| discriminate].
  injection Hrender as <-.
  rewrite list_lookup_fmap in Hcard.
  destruct (ProductsQueryData.products data !! i) as [product |] eqn:Hi;
    [| discriminate].
  injection Hcard as <- <-.
  exists data, product. by repeat split.
Qed.

Lemma select_then_back_witness :
  App.render
    (App.handleBackToList
       (App.handleProductSelect
          (ProductCard.onClick (ProductCard.render Sample.A)) None))
    (shown Sample.loaded)
  = App.List (ProductList.Products [(1, ProductCard.render Sample.A)]).
Proof.
  destruct (select_then_back (shown Sample.loaded)
              [(1, ProductCard.render Sample.A)] 0 1
              (ProductCard.render Sample.A) None eq_refl eq_refl)
    as (data & product & _ & _ & _ & _ & _ & Hback).
  exact Hback.
Defined.

(** ** The submit button *)

(** X13.  In the demo the submit button is disabled while either field is
    empty once trimmed, so a click that reaches the handler has passed its
    first check.  The handler then starts the mutation, unless the price
    does not parse to a number above zero: in that case it returns with
    nothing changed and nothing shown. *)
Theorem demo_enabled_button {builtins : Builtins} (demoMode : DemoMode)
    (env : Env.t) (w : World.t) :
  submitDisabled (Demo demoMode) w = false →
  let priceNumber := parseFloat (Form.price (World.form w)) in
  trim (Form.title (World.form w)) ≠ "" ∧
  trim (Form.price (World.form w)) ≠ "" ∧
  handleSubmit (Demo demoMode) env w =
    if PrimFloat.is_nan priceNumber || PrimFloat.leb priceNumber 0 then w
    else mutate (addProductMutation (Demo demoMode) env)
                {| NewProduct.title := trim (Form.title (World.form w));
                   NewProduct.price := priceNumber |} w.
Proof.
  intros Henabled priceNumber. subst priceNumber.
  cbn [submitDisabled] in Henabled.
  apply orb_false_elim in Henabled as [Henabled Hprice].
  apply orb_false_elim in Henabled as [_ Htitle].
  repeat split.
  - intros Hempty. apply falsy_empty in Hempty. congruence.
  - intros Hempty. apply falsy_empty in Hempty. congruence.
  - cbn [handleSubmit]. unfold OptimisticUpdateDemo.handleSubmit. cbv zeta.
    by rewrite Htitle, Hprice.
Qed.

Lemma demo_enabled_button_witness :
  handleSubmit (builtins := Sample.tabulated) (Demo error) Sample.rejects
    (World.mk (World.client Sample.loaded) (Form.mk "Pen" "0") Idle [])
  = World.mk (World.client Sample.loaded) (Form.mk "Pen" "0") Idle [].
Proof.
  exact (proj2 (proj2 (demo_enabled_button (builtins := Sample.tabulated)
                         error Sample.rejects
                         (World.mk (World.client Sample.loaded)
                                   (Form.mk "Pen" "0") Idle [])
                         eq_refl))).
Defined.

(** ** Trying again *)

(** X14.  A failed invocation leaves the form as the user filled it, and a
    second invocation after it ends like the same invocation would have
    without the failed one before it: the same data in the store, the same
    form, the same status. *)
Theorem retry_after_failure (c : Component) (env1 env2 : Env.t)
    (v1 v2 : NewProduct.t) (w : World.t) (e : Error) :
  Env.cancellation env1 = Returns tt →
  remoteCall c env1 v1 w = Throws e →
  let failed := mutate (addProductMutation c env1) v1 w in
  let retried := mutate (addProductMutation c env2) v2 failed in
  let direct := mutate (addProductMutation c env2) v2 w in
  World.form failed = World.form w ∧
  QueryClient.queries (World.client retried)
    = QueryClient.queries (World.client direct) ∧
  World.form retried = World.form direct ∧
  World.status retried = World.status direct.
Proof.
  intros Hc1 Hr1 failed retried direct. subst failed retried direct.
  open_world w. rewrite (mutate_remote_failed _ _ _ e) by done.
  split; [reflexivity |].
  destruct (Env.cancellation env2) as [[] | e2] eqn:Hc2.
  - destruct (mutationFn_run c env2 v2) as (outcome & Hrun & _).
    pose proof (λ w, remoteCall_outcome c env2 v2 w outcome Hrun) as Hr2.
    destruct outcome as [data | e2].
    + rewrite !(mutate_remote_succeeded _ _ _ data) by done. by repeat split.
    + rewrite !(mutate_remote_failed _ _ _ e2) by done. by repeat split.
  - rewrite !(mutate_begin_failed _ _ _ e2) by done. by repeat split.
Qed.

Lemma retry_after_failure_witness :
  World.status
    (mutate (addProductMutation Optimistic Sample.succeeds) Sample.pen
       (mutate (addProductMutation Optimistic Sample.rejects) Sample.pen
               Sample.loaded))
  = World.status
      (mutate (addProductMutation Optimistic Sample.succeeds) Sample.pen
              Sample.loaded).
Proof.
  exact (proj2 (proj2 (proj2
           (retry_after_failure Optimistic Sample.rejects Sample.succeeds
              Sample.pen Sample.pen Sample.loaded "Failed to fetch"
              eq_refl eq_refl)))).
Defined.

(** ** Scenarios *)

(** The list holds [A]; a submit is rejected by the remote call; after the
    rollback the entry is the one held before. *)
Example scenario_rejected_submit :
  cached (mutate (addProductMutation Optimistic Sample.rejects)
                 {| NewProduct.title := "Bad"; NewProduct.price := 2 |}
                 Sample.loaded)
  = Some Sample.listed.
Proof. reflexivity. Qed.

(** The cancellation fails: the invocation ends in the error status without
    having written or requested anything. *)
Example scenario_cancellation_fails :
  let w' := mutate (addProductMutation Optimistic Sample.uncancelled)
                   Sample.pen Sample.loaded in
  World.status w' = IsError "cancel failed" ∧
  cached w' = Some Sample.listed ∧
  World.trace w' = [CancelQueries productsKey; InvalidateQueries productsKey].
Proof. repeat split. Qed.

(** A valid form, submitted while the list is loaded, shows the placeholder
    first in the list as soon as the begin phase is over. *)
Example scenario_placeholder_first :
  (ProductsQueryData.products <$>
     cached (begun (Demo normal) Sample.succeeds Sample.pen Sample.loaded))
  = Some [ {| ProductResponse.id := 1700000000000;
              ProductResponse.title := "Pen";
              ProductResponse.price := 1.5;
              ProductResponse.thumbnail :=
                Some "https://picsum.photos/150/150?random=1700000000000";
              ProductResponse.description :=
                Some "Pen - Added via optimistic update";
              ProductResponse.images :=
                Some ["https://picsum.photos/300/300?random=1700000000000"] |};
           Sample.A ].
Proof. reflexivity. Qed.
